(** * FraudGuard: the transaction ledger contract

    A shallow embedding of the Solidity contract [FraudGuard] and the
    properties of its access control and of its transaction state machine.

    Solidity values are modelled as follows.
    - [bytes32], [address] and [uint256] are natural numbers ([N]); the
      contract performs no arithmetic on them, only comparisons with zero
      and with each other, so no wrap-around is involved.
    - a [mapping] is a finite map ([gmap]) read with the type's zero value
      as default, which is what an EVM storage read of an unwritten slot
      gives.
    - a call either runs to completion or reverts with one of the
      [require] messages; a reverted call leaves the storage and the event
      log as they were. *)

From Stdlib Require Import NArith List Lia.
From stdpp Require Import base option gmap strings.
Import ListNotations.

Local Open Scope string_scope.
Local Open Scope N_scope.

(** ** Data model *)

Abbreviation bytes32 := N (only parsing).
Abbreviation address := N (only parsing).
Abbreviation uint256 := N (only parsing).

(** [enum TxStatus { Pending, Held, Verified, Rejected, Completed }] *)
Inductive TxStatus : Set :=
  | Pending
  | Held
  | Verified
  | Rejected
  | Completed.

#[global] Instance TxStatus_eq_dec : EqDecision TxStatus.
Proof. solve_decision. Defined.

(** [struct Transaction] *)
Record Transaction : Set := mkTransaction {
  txHash : bytes32;
  sender : address;
  amount : uint256;
  timestamp : uint256;
  status : TxStatus;
  reason : string
}.

(** The value of a storage slot that was never written: every field is the
    zero of its type, and the zero of an enum is its first member. *)
Definition zeroTransaction : Transaction :=
  mkTransaction 0 0 0 0 Pending "".

Definition with_status (t : Transaction) (s : TxStatus) : Transaction :=
  mkTransaction (txHash t) (sender t) (amount t) (timestamp t) s (reason t).

Definition with_reason (t : Transaction) (r : string) : Transaction :=
  mkTransaction (txHash t) (sender t) (amount t) (timestamp t) (status t) r.

(** Events of the contract; the last argument is [block.timestamp]. *)
Inductive Event : Set :=
  | TxSubmitted (h : bytes32) (s : address) (a : uint256) (ts : uint256)
  | TxHeld (h : bytes32) (r : string) (ts : uint256)
  | TxVerified (h : bytes32) (verified : bool) (r : string) (ts : uint256)
  | TxCompleted (h : bytes32) (ts : uint256).

(** Contract storage, together with the log of emitted events. *)
Record State : Type := mkState {
  owner : address;
  relayer : address;
  transactions : gmap N Transaction;
  authorizedRelayers : gmap N bool;
  events : list Event
}.

(** What a call sees of its environment. *)
Record Env : Set := mkEnv {
  msg_sender : address;
  block_timestamp : uint256
}.

(** [transactions[h]] *)
Definition tx_at (st : State) (h : bytes32) : Transaction :=
  default zeroTransaction (transactions st !! h).

(** [authorizedRelayers[a]] *)
Definition authorized_at (st : State) (a : address) : bool :=
  default false (authorizedRelayers st !! a).

(** ** Reverts *)

(** One constructor per [require] of the contract. *)
Inductive Revert : Set :=
  | OnlyOwner
  | OnlyRelayer
  | AlreadyExists
  | AmountZero
  | DoesNotExist
  | NotPending
  | NotHeld
  | NotVerified
  | InvalidRelayer
  | InvalidNewOwner.

Definition message (r : Revert) : string :=
  match r with
  | OnlyOwner => "Only owner can call this function"
  | OnlyRelayer => "Only relayer can call this function"
  | AlreadyExists => "Transaction already exists"
  | AmountZero => "Amount must be greater than 0"
  | DoesNotExist => "Transaction does not exist"
  | NotPending => "Transaction is not in pending state"
  | NotHeld => "Transaction is not in held state"
  | NotVerified => "Only verified transactions can be completed"
  | InvalidRelayer => "Invalid relayer address"
  | InvalidNewOwner => "Invalid new owner"
  end.

(** The error taxonomy under which the reverts are reported. *)
Inductive ErrorKind : Set :=
  | AuthorizationError
  | NotFoundError
  | DuplicateError
  | InvalidStateError
  | ValidationError.

Definition kind (r : Revert) : ErrorKind :=
  match r with
  | OnlyOwner | OnlyRelayer => AuthorizationError
  | AlreadyExists => DuplicateError
  | AmountZero | InvalidRelayer | InvalidNewOwner => ValidationError
  | DoesNotExist => NotFoundError
  | NotPending | NotHeld | NotVerified => InvalidStateError
  end.

(** ** A state-and-revert monad for contract calls *)

Inductive Result (A : Type) : Type :=
  | Ok (a : A)
  | Reverted (r : Revert).
Arguments Ok {A} a.
Arguments Reverted {A} r.

Definition Call (A : Type) : Type := State -> Result (A * State).

Definition ret {A} (a : A) : Call A := fun st => Ok (a, st).

Definition bind {A B} (m : Call A) (k : A -> Call B) : Call B :=
  fun st =>
    match m st with
    | Ok (a, st') => k a st'
    | Reverted r => Reverted r
    end.

Declare Scope call_scope.
Delimit Scope call_scope with call.
Notation "x <- m ;; k" := (bind m (fun x => k))
  (at level 100, m at next level, right associativity) : call_scope.
Notation "m ;; k" := (bind m (fun _ => k))
  (at level 100, right associativity) : call_scope.
Local Open Scope call_scope.

(** [require(cond, message r)] *)
Definition require (cond : bool) (r : Revert) : Call unit :=
  fun st => if cond then Ok (tt, st) else Reverted r.

Definition read {A} (f : State -> A) : Call A := fun st => Ok (f st, st).

Definition write (f : State -> State) : Call unit := fun st => Ok (tt, f st).

Definition set_owner (a : address) (st : State) : State :=
  mkState a (relayer st) (transactions st) (authorizedRelayers st) (events st).

Definition set_relayer (a : address) (st : State) : State :=
  mkState (owner st) a (transactions st) (authorizedRelayers st) (events st).

Definition set_tx (h : bytes32) (t : Transaction) (st : State) : State :=
  mkState (owner st) (relayer st) (<[h := t]> (transactions st))
          (authorizedRelayers st) (events st).

Definition set_authorized (a : address) (b : bool) (st : State) : State :=
  mkState (owner st) (relayer st) (transactions st)
          (<[a := b]> (authorizedRelayers st)) (events st).

Definition log (e : Event) (st : State) : State :=
  mkState (owner st) (relayer st) (transactions st) (authorizedRelayers st)
          (events st ++ [e]).

(** [emit e] *)
Definition emit (e : Event) : Call unit := write (log e).

(** [txData.status = s] for the storage pointer [txData = transactions[h]] *)
Definition set_status (h : bytes32) (s : TxStatus) : Call unit :=
  write (fun st => set_tx h (with_status (tx_at st h) s) st).

(** [txData.reason = r] for the storage pointer [txData = transactions[h]] *)
Definition set_reason (h : bytes32) (r : string) : Call unit :=
  write (fun st => set_tx h (with_reason (tx_at st h) r) st).

(** ** The contract *)

(** [modifier onlyOwner] *)
Definition onlyOwner (env : Env) : Call unit :=
  o <- read owner ;;
  require (msg_sender env =? o) OnlyOwner.

(** The condition of [modifier onlyRelayer]. *)
Definition isAuthorizedRelayer (st : State) (a : address) : bool :=
  (a =? relayer st) || authorized_at st a.

(** [modifier onlyRelayer] *)
Definition onlyRelayer (env : Env) : Call unit :=
  ok <- read (fun st => isAuthorizedRelayer st (msg_sender env)) ;;
  require ok OnlyRelayer.

(** [constructor()], run with [msg.sender = deployer] on empty storage. *)
Definition constructor (deployer : address) : State :=
  mkState deployer deployer ∅ {[ deployer := true ]} [].

Definition submitTxHash (env : Env) (_txHash : bytes32) (_sender : address)
    (_amount : uint256) : Call unit :=
  t <- read (fun st => tx_at st _txHash) ;;
  require (txHash t =? 0) AlreadyExists ;;
  require (0 <? _amount) AmountZero ;;
  write (set_tx _txHash
           (mkTransaction _txHash _sender _amount (block_timestamp env)
                          Pending "")) ;;
  emit (TxSubmitted _txHash _sender _amount (block_timestamp env)).

Definition setVerification (env : Env) (_txHash : bytes32) (_verified : bool)
    (_reason : string) : Call unit :=
  onlyRelayer env ;;
  txData <- read (fun st => tx_at st _txHash) ;;
  require (negb (txHash txData =? 0)) DoesNotExist ;;
  if _verified then
    set_status _txHash Verified ;;
    set_reason _txHash _reason ;;
    emit (TxVerified _txHash true _reason (block_timestamp env))
  else
    set_status _txHash Rejected ;;
    set_reason _txHash _reason ;;
    emit (TxVerified _txHash false _reason (block_timestamp env)).

Definition holdTransaction (env : Env) (_txHash : bytes32) (_reason : string)
    : Call unit :=
  onlyRelayer env ;;
  txData <- read (fun st => tx_at st _txHash) ;;
  require (negb (txHash txData =? 0)) DoesNotExist ;;
  require (bool_decide (status txData = Pending)) NotPending ;;
  set_status _txHash Held ;;
  set_reason _txHash _reason ;;
  emit (TxHeld _txHash _reason (block_timestamp env)).

Definition releaseHeldTransaction (env : Env) (_txHash : bytes32)
    (_approved : bool) (_reason : string) : Call unit :=
  onlyOwner env ;;
  txData <- read (fun st => tx_at st _txHash) ;;
  require (negb (txHash txData =? 0)) DoesNotExist ;;
  require (bool_decide (status txData = Held)) NotHeld ;;
  if _approved then
    set_status _txHash Verified ;;
    set_reason _txHash _reason ;;
    emit (TxVerified _txHash true _reason (block_timestamp env))
  else
    set_status _txHash Rejected ;;
    set_reason _txHash _reason ;;
    emit (TxVerified _txHash false _reason (block_timestamp env)).

Definition completeTransaction (env : Env) (_txHash : bytes32) : Call unit :=
  onlyOwner env ;;
  txData <- read (fun st => tx_at st _txHash) ;;
  require (negb (txHash txData =? 0)) DoesNotExist ;;
  require (bool_decide (status txData = Verified)) NotVerified ;;
  set_status _txHash Completed ;;
  emit (TxCompleted _txHash (block_timestamp env)).

(** [isHeld] is a view: it reads the storage and cannot revert. *)
Definition isHeld (st : State) (_txHash : bytes32) : bool * string :=
  let txData := tx_at st _txHash in
  (bool_decide (status txData = Held), reason txData).

(** [getTransactionStatus] is a view as well. *)
Definition getTransactionStatus (st : State) (_txHash : bytes32) : string :=
  let txData := tx_at st _txHash in
  if txHash txData =? 0 then "NOT_FOUND"
  else if bool_decide (status txData = Pending) then "PENDING"
  else if bool_decide (status txData = Held) then "HELD"
  else if bool_decide (status txData = Verified) then "VERIFIED"
  else if bool_decide (status txData = Rejected) then "REJECTED"
  else if bool_decide (status txData = Completed) then "COMPLETED"
  else "UNKNOWN".

Definition setRelayer (env : Env) (_relayer : address) (_authorized : bool)
    : Call unit :=
  onlyOwner env ;;
  require (negb (_relayer =? 0)) InvalidRelayer ;;
  write (set_authorized _relayer _authorized) ;;
  if _authorized then
    write (set_relayer _relayer)
  else
    cur <- read relayer ;;
    if cur =? _relayer then
      o <- read owner ;;
      write (set_relayer o)
    else ret tt.

Definition transferOwnership (env : Env) (_newOwner : address) : Call unit :=
  onlyOwner env ;;
  require (negb (_newOwner =? 0)) InvalidNewOwner ;;
  write (set_owner _newOwner).

(** ** Calls and traces *)

(** The state-changing entry points of the contract. *)
Inductive Op : Set :=
  | SubmitTxHash (h : bytes32) (s : address) (a : uint256)
  | SetVerification (h : bytes32) (verified : bool) (r : string)
  | HoldTransaction (h : bytes32) (r : string)
  | ReleaseHeldTransaction (h : bytes32) (approved : bool) (r : string)
  | CompleteTransaction (h : bytes32)
  | SetRelayer (a : address) (authorized : bool)
  | TransferOwnership (a : address).

Definition dispatch (env : Env) (op : Op) : Call unit :=
  match op with
  | SubmitTxHash h s a => submitTxHash env h s a
  | SetVerification h v r => setVerification env h v r
  | HoldTransaction h r => holdTransaction env h r
  | ReleaseHeldTransaction h b r => releaseHeldTransaction env h b r
  | CompleteTransaction h => completeTransaction env h
  | SetRelayer a b => setRelayer env a b
  | TransferOwnership a => transferOwnership env a
  end.

(** The outcome of a call: the new state, or the revert. *)
Definition run (m : Call unit) (st : State) : Result State :=
  match m st with
  | Ok (_, st') => Ok st'
  | Reverted r => Reverted r
  end.

(** The state after a call: a reverted call changes nothing. *)
Definition exec (c : Env * Op) (st : State) : State :=
  match run (dispatch (fst c) (snd c)) st with
  | Ok st' => st'
  | Reverted _ => st
  end.

(** The state after a sequence of calls, oldest first. *)
Definition execs (cs : list (Env * Op)) (st : State) : State :=
  fold_left (fun s c => exec c s) cs st.

(** The record at [h] after a status and a reason were assigned through
    the storage pointer: the other four fields stay. *)
Definition transition (h : bytes32) (s : TxStatus) (r : string) (st : State)
    : State :=
  let t := tx_at st h in
  set_tx h (mkTransaction (txHash t) (sender t) (amount t) (timestamp t) s r) st.

(** ** Vocabulary of the properties *)

(** The existence test every entry point applies to a record:
    [txData.txHash != 0]. *)
Definition recordExists (st : State) (h : bytes32) : bool :=
  negb (txHash (tx_at st h) =? 0).

(** The two statuses from which the state machine draws no arrow. *)
Definition terminal (s : TxStatus) : bool :=
  match s with
  | Rejected | Completed => true
  | Pending | Held | Verified => false
  end.

(** The status strings promised to readers. *)
Definition statusStrings : list string :=
  ["NOT_FOUND"; "PENDING"; "HELD"; "VERIFIED"; "REJECTED"; "COMPLETED"].

(** Entry points that carry [onlyRelayer]. *)
Definition relayerOnly (op : Op) : bool :=
  match op with
  | SetVerification _ _ _ | HoldTransaction _ _ => true
  | _ => false
  end.

(** Entry points that carry [onlyOwner]. *)
Definition ownerOnly (op : Op) : bool :=
  match op with
  | ReleaseHeldTransaction _ _ _ | CompleteTransaction _
  | SetRelayer _ _ | TransferOwnership _ => true
  | _ => false
  end.

(** Whether a call goes through. *)
Definition succeeds (m : Call unit) (st : State) : bool :=
  match run m st with
  | Ok _ => true
  | Reverted _ => false
  end.

(** Whether [op] is a [setVerification] aimed at the record [h]. *)
Definition verifies (h : bytes32) (op : Op) : bool :=
  match op with
  | SetVerification h' _ _ => h' =? h
  | _ => false
  end.

(** Storage invariant: the record stored under [h] carries [h] as its
    hash unless that field is zero, and a record whose hash field is zero
    has never been through a transition. *)
Definition stored_ok (st : State) : Prop :=
  forall h,
    (txHash (tx_at st h) = 0 \/ txHash (tx_at st h) = h) /\
    (txHash (tx_at st h) = 0 ->
     status (tx_at st h) = Pending /\ reason (tx_at st h) = "").

(** ** Sample runs

    Concrete callers and traces on which the theorems below are
    instantiated.  Address 1 deploys the contract; 2 and 3 are users. *)

Definition deployer_env : Env := mkEnv 1 100.
Definition user_env : Env := mkEnv 2 200.
Definition stranger_env : Env := mkEnv 3 300.

(** Hash 7 submitted by user 2 on a fresh contract. *)
Definition submitted : State :=
  exec (user_env, SubmitTxHash 7 2 50) (constructor 1).

(** ... then rejected by the relayer. *)
Definition rejected : State :=
  exec (deployer_env, SetVerification 7 false "fraud") submitted.

(** ... or verified and completed. *)
Definition completed : State :=
  execs [(deployer_env, SetVerification 7 true "ok");
         (deployer_env, CompleteTransaction 7)] submitted.

(** ... or put on hold. *)
Definition held : State :=
  exec (deployer_env, HoldTransaction 7 "manual review") submitted.

(** The fixture of the contract's test suite: deployed by 1, with address
    4 then registered as relayer by the owner. *)
Definition relayer_env : Env := mkEnv 4 400.

Definition fixture : State :=
  exec (deployer_env, SetRelayer 4 true) (constructor 1).

(** The revert message of a call, if it reverts. *)
Definition revertedWith (m : Call unit) (st : State) : option string :=
  match run m st with
  | Ok _ => None
  | Reverted r => Some (message r)
  end.

(** The all-zero hash submitted on a fresh contract. *)
Definition zero_submitted : State :=
  exec (user_env, SubmitTxHash 0 2 5) (constructor 1).

(** ** Vocabulary of the further properties *)

(** The events a call emits when it goes through, read off the [emit]
    statements of each entry point. *)
Definition emitted (env : Env) (op : Op) : list Event :=
  match op with
  | SubmitTxHash h s a => [TxSubmitted h s a (block_timestamp env)]
  | SetVerification h v r => [TxVerified h v r (block_timestamp env)]
  | HoldTransaction h r => [TxHeld h r (block_timestamp env)]
  | ReleaseHeldTransaction h b r => [TxVerified h b r (block_timestamp env)]
  | CompleteTransaction h => [TxCompleted h (block_timestamp env)]
  | SetRelayer _ _ | TransferOwnership _ => []
  end.

(** What an observer of the log learns about the record under [h] from
    one event. *)
Definition apply_event (h : bytes32) (t : Transaction) (e : Event)
    : Transaction :=
  match e with
  | TxSubmitted h' s a ts =>
      if h' =? h then mkTransaction h' s a ts Pending "" else t
  | TxHeld h' r _ =>
      if h' =? h then with_reason (with_status t Held) r else t
  | TxVerified h' v r _ =>
      if h' =? h
      then with_reason (with_status t (if v then Verified else Rejected)) r
      else t
  | TxCompleted h' _ =>
      if h' =? h then with_status t Completed else t
  end.

(** The record under [h] as rebuilt from a log alone. *)
Definition replay (l : list Event) (h : bytes32) : Transaction :=
  fold_left (apply_event h) l zeroTransaction.

(** Whether an event is a submission of [h]. *)
Definition submits (h : bytes32) (e : Event) : bool :=
  match e with
  | TxSubmitted h' _ _ _ => h' =? h
  | _ => false
  end.

(** The arrows of the status machine as the entry points draw them:
    holdTransaction, completeTransaction, and the two entry points that
    write a verdict. *)
Definition edge (s s' : TxStatus) : bool :=
  match s, s' with
  | Pending, Held => true
  | Verified, Completed => true
  | Held, Verified | Held, Rejected => true
  | _, Verified | _, Rejected => true
  | _, _ => false
  end.

(** How far a record has come: not yet looked at, on hold, decided. *)
Definition stage (s : TxStatus) : N :=
  match s with
  | Pending => 0
  | Held => 1
  | Verified | Rejected | Completed => 2
  end.

(** The two entry points that manage the roles. *)
Definition administrative (op : Op) : bool :=
  match op with
  | SetRelayer _ _ | TransferOwnership _ => true
  | _ => false
  end.

(** What every slot of the ledger looks like: untouched, or holding a
    record filed under its own hash with a positive amount; and a record
    that is still Pending carries no reason. *)
Definition record_ok (h : bytes32) (t : Transaction) : Prop :=
  (t = zeroTransaction \/ (txHash t = h /\ 0 < amount t)) /\
  (status t = Pending -> reason t = "").

(** ** The front end's phone number digest

    [hashPhoneNumber] of [frontend/app.js]:
    ['hash_' + btoa(phone).replace(/[^a-zA-Z0-9]/g, '').substr(0, 20)].
    [btoa] is the browser's; it is taken as a parameter, and it raises on
    input outside Latin-1, in which case nothing is returned. *)

Definition is_alnum (c : Ascii.ascii) : bool :=
  let n := Ascii.N_of_ascii c in
  ((97 <=? n) && (n <=? 122)) || ((65 <=? n) && (n <=? 90))
  || ((48 <=? n) && (n <=? 57)).

(** The characters of the class [a-zA-Z0-9]. *)
Definition alnum_alphabet : string :=
  "abcdefghijklmnopqrstuvwxyzABCDEFGHIJKLMNOPQRSTUVWXYZ0123456789".

(** [s.replace(/[^a-zA-Z0-9]/g, '')] *)
Fixpoint strip_non_alnum (s : string) : string :=
  match s with
  | EmptyString => EmptyString
  | String c s' =>
      if is_alnum c then String c (strip_non_alnum s') else strip_non_alnum s'
  end.

Definition hashPhoneNumber (btoa : string -> option string) (phone : string)
    : option string :=
  match btoa phone with
  | Some b => Some ("hash_" ++ String.substring 0 20 (strip_non_alnum b))%string
  | None => None
  end.

(** ** Storage lemmas *)

Lemma tx_at_set_tx h h' t st :
  tx_at (set_tx h t st) h' = if decide (h = h') then t else tx_at st h'.
Proof.
  unfold tx_at, set_tx; simpl. rewrite lookup_insert.
  destruct (decide (h = h')); reflexivity.
Qed.

Lemma tx_at_set_tx_eq h t st : tx_at (set_tx h t st) h = t.
Proof. rewrite tx_at_set_tx. destruct (decide (h = h)); congruence. Qed.

Lemma tx_at_set_tx_ne h h' t st :
  h <> h' -> tx_at (set_tx h t st) h' = tx_at st h'.
Proof. intros Hne. rewrite tx_at_set_tx. destruct (decide (h = h')); congruence. Qed.

Lemma set_tx_set_tx h t1 t2 st : set_tx h t2 (set_tx h t1 st) = set_tx h t2 st.
Proof. unfold set_tx; simpl. f_equal. apply insert_insert_eq. Qed.

Lemma tx_at_log e st h : tx_at (log e st) h = tx_at st h.
Proof. reflexivity. Qed.

Lemma tx_at_empty d h : tx_at (constructor d) h = zeroTransaction.
Proof. unfold tx_at, constructor; simpl. rewrite lookup_empty. reflexivity. Qed.

Lemma tx_at_transition h s r st h' :
  tx_at (transition h s r st) h' =
  if decide (h = h')
  then mkTransaction (txHash (tx_at st h)) (sender (tx_at st h))
                     (amount (tx_at st h)) (timestamp (tx_at st h)) s r
  else tx_at st h'.
Proof. unfold transition. apply tx_at_set_tx. Qed.

(** ** What each entry point computes *)

Lemma submitTxHash_run env h s a st :
  run (submitTxHash env h s a) st =
  if txHash (tx_at st h) =? 0 then
    if 0 <? a then
      Ok (log (TxSubmitted h s a (block_timestamp env))
            (set_tx h (mkTransaction h s a (block_timestamp env) Pending "") st))
    else Reverted AmountZero
  else Reverted AlreadyExists.
Proof.
  unfold run, submitTxHash, bind, read, require, write, emit; simpl.
  destruct (txHash (tx_at st h) =? 0); [|reflexivity].
  destruct (0 <? a); reflexivity.
Qed.

Lemma verdict_run env h (v : bool) r st :
  run (if v
       then (set_status h Verified ;; set_reason h r ;;
             emit (TxVerified h true r (block_timestamp env)))
       else (set_status h Rejected ;; set_reason h r ;;
             emit (TxVerified h false r (block_timestamp env)))) st =
  Ok (log (TxVerified h v r (block_timestamp env))
        (transition h (if v then Verified else Rejected) r st)).
Proof.
  unfold transition.
  destruct v; unfold run, bind, set_status, set_reason, write, emit; simpl;
    rewrite tx_at_set_tx_eq, set_tx_set_tx; reflexivity.
Qed.

Lemma run_bind_unit (m k : Call unit) st :
  run (m ;; k) st =
  match run m st with
  | Ok st' => run k st'
  | Reverted r => Reverted r
  end.
Proof.
  unfold run, bind. destruct (m st) as [[[] st']|r]; reflexivity.
Qed.

Lemma run_bind_read {A} (f : State -> A) (k : A -> Call unit) st :
  run (x <- read f ;; k x) st = run (k (f st)) st.
Proof. reflexivity. Qed.

Lemma run_require (c : bool) r st :
  run (require c r) st = if c then Ok st else Reverted r.
Proof. unfold run, require. destruct c; reflexivity. Qed.

Lemma run_write f st : run (write f) st = Ok (f st).
Proof. reflexivity. Qed.

Lemma onlyOwner_run env st :
  run (onlyOwner env) st =
  if msg_sender env =? owner st then Ok st else Reverted OnlyOwner.
Proof. unfold onlyOwner. rewrite run_bind_read. apply run_require. Qed.

Lemma onlyRelayer_run env st :
  run (onlyRelayer env) st =
  if isAuthorizedRelayer st (msg_sender env) then Ok st
  else Reverted OnlyRelayer.
Proof. unfold onlyRelayer. rewrite run_bind_read. apply run_require. Qed.

Lemma setVerification_run env h v r st :
  run (setVerification env h v r) st =
  if isAuthorizedRelayer st (msg_sender env) then
    if txHash (tx_at st h) =? 0 then Reverted DoesNotExist
    else Ok (log (TxVerified h v r (block_timestamp env))
               (transition h (if v then Verified else Rejected) r st))
  else Reverted OnlyRelayer.
Proof.
  unfold setVerification.
  rewrite run_bind_unit, onlyRelayer_run.
  destruct (isAuthorizedRelayer st (msg_sender env)); [|reflexivity].
  rewrite run_bind_read, run_bind_unit, run_require.
  destruct (txHash (tx_at st h) =? 0); simpl; [reflexivity|].
  apply verdict_run.
Qed.

Lemma holdTransaction_run env h r st :
  run (holdTransaction env h r) st =
  if isAuthorizedRelayer st (msg_sender env) then
    if txHash (tx_at st h) =? 0 then Reverted DoesNotExist
    else if bool_decide (status (tx_at st h) = Pending) then
      Ok (log (TxHeld h r (block_timestamp env)) (transition h Held r st))
    else Reverted NotPending
  else Reverted OnlyRelayer.
Proof.
  unfold holdTransaction.
  rewrite run_bind_unit, onlyRelayer_run.
  destruct (isAuthorizedRelayer st (msg_sender env)); [|reflexivity].
  rewrite run_bind_read, run_bind_unit, run_require.
  destruct (txHash (tx_at st h) =? 0); simpl; [reflexivity|].
  rewrite run_bind_unit, run_require.
  destruct (bool_decide (status (tx_at st h) = Pending)); [|reflexivity].
  unfold transition, run, bind, set_status, set_reason, write, emit; simpl.
  rewrite tx_at_set_tx_eq, set_tx_set_tx. reflexivity.
Qed.

Lemma releaseHeldTransaction_run env h v r st :
  run (releaseHeldTransaction env h v r) st =
  if msg_sender env =? owner st then
    if txHash (tx_at st h) =? 0 then Reverted DoesNotExist
    else if bool_decide (status (tx_at st h) = Held) then
      Ok (log (TxVerified h v r (block_timestamp env))
            (transition h (if v then Verified else Rejected) r st))
    else Reverted NotHeld
  else Reverted OnlyOwner.
Proof.
  unfold releaseHeldTransaction.
  rewrite run_bind_unit, onlyOwner_run.
  destruct (msg_sender env =? owner st); [|reflexivity].
  rewrite run_bind_read, run_bind_unit, run_require.
  destruct (txHash (tx_at st h) =? 0); simpl; [reflexivity|].
  rewrite run_bind_unit, run_require.
  destruct (bool_decide (status (tx_at st h) = Held)); [|reflexivity].
  apply verdict_run.
Qed.

Lemma completeTransaction_run env h st :
  run (completeTransaction env h) st =
  if msg_sender env =? owner st then
    if txHash (tx_at st h) =? 0 then Reverted DoesNotExist
    else if bool_decide (status (tx_at st h) = Verified) then
      Ok (log (TxCompleted h (block_timestamp env))
            (transition h Completed (reason (tx_at st h)) st))
    else Reverted NotVerified
  else Reverted OnlyOwner.
Proof.
  unfold completeTransaction.
  rewrite run_bind_unit, onlyOwner_run.
  destruct (msg_sender env =? owner st); [|reflexivity].
  rewrite run_bind_read, run_bind_unit, run_require.
  destruct (txHash (tx_at st h) =? 0); simpl; [reflexivity|].
  rewrite run_bind_unit, run_require.
  destruct (bool_decide (status (tx_at st h) = Verified)); reflexivity.
Qed.

Lemma setRelayer_run env a (b : bool) st :
  run (setRelayer env a b) st =
  if msg_sender env =? owner st then
    if a =? 0 then Reverted InvalidRelayer
    else Ok (if b then set_relayer a (set_authorized a b st)
             else if relayer st =? a
                  then set_relayer (owner st) (set_authorized a b st)
                  else set_authorized a b st)
  else Reverted OnlyOwner.
Proof.
  unfold setRelayer.
  rewrite run_bind_unit, onlyOwner_run.
  destruct (msg_sender env =? owner st); [|reflexivity].
  rewrite run_bind_unit, run_require.
  destruct (a =? 0); simpl; [reflexivity|].
  rewrite run_bind_unit, run_write.
  destruct b; [reflexivity|].
  rewrite run_bind_read. simpl.
  destruct (relayer st =? a); reflexivity.
Qed.

Lemma transferOwnership_run env a st :
  run (transferOwnership env a) st =
  if msg_sender env =? owner st then
    if a =? 0 then Reverted InvalidNewOwner
    else Ok (set_owner a st)
  else Reverted OnlyOwner.
Proof.
  unfold transferOwnership.
  rewrite run_bind_unit, onlyOwner_run.
  destruct (msg_sender env =? owner st); [|reflexivity].
  rewrite run_bind_unit, run_require.
  destruct (a =? 0); reflexivity.
Qed.

(** ** How a call changes a record *)

Lemma exec_unfold env op st :
  exec (env, op) st =
  match run (dispatch env op) st with
  | Ok st' => st'
  | Reverted _ => st
  end.
Proof. reflexivity. Qed.

Ltac case_guards :=
  repeat match goal with
  | |- context [if ?b then _ else _] => destruct b eqn:?
  end.

(** A call leaves a record alone, or creates it over a zero hash field,
    or moves an existing record keeping its four immutable fields. *)
Lemma exec_tx_at c st h :
  tx_at (exec c st) h = tx_at st h \/
  (txHash (tx_at st h) = 0 /\
   txHash (tx_at (exec c st) h) = h /\
   status (tx_at (exec c st) h) = Pending /\
   reason (tx_at (exec c st) h) = "") \/
  (txHash (tx_at st h) <> 0 /\
   txHash (tx_at (exec c st) h) = txHash (tx_at st h) /\
   sender (tx_at (exec c st) h) = sender (tx_at st h) /\
   amount (tx_at (exec c st) h) = amount (tx_at st h) /\
   timestamp (tx_at (exec c st) h) = timestamp (tx_at st h)).
Proof.
  destruct c as [env op]. rewrite exec_unfold.
  destruct op as [h' s a|h' v r|h' r|h' v r|h'|a b|a]; simpl.
  - rewrite submitTxHash_run.
    destruct (txHash (tx_at st h') =? 0) eqn:E0; [|now left].
    destruct (0 <? a); [|now left].
    rewrite tx_at_log, tx_at_set_tx.
    destruct (decide (h' = h)) as [->|]; [|now left].
    apply N.eqb_eq in E0. right; left. simpl. auto.
  - rewrite setVerification_run.
    destruct (isAuthorizedRelayer st (msg_sender env)); [|now left].
    destruct (txHash (tx_at st h') =? 0) eqn:E0; [now left|].
    rewrite tx_at_log, tx_at_transition.
    destruct (decide (h' = h)) as [->|]; [|now left].
    apply N.eqb_neq in E0. right; right. simpl. auto.
  - rewrite holdTransaction_run.
    destruct (isAuthorizedRelayer st (msg_sender env)); [|now left].
    destruct (txHash (tx_at st h') =? 0) eqn:E0; [now left|].
    destruct (bool_decide (status (tx_at st h') = Pending)); [|now left].
    rewrite tx_at_log, tx_at_transition.
    destruct (decide (h' = h)) as [->|]; [|now left].
    apply N.eqb_neq in E0. right; right. simpl. auto.
  - rewrite releaseHeldTransaction_run.
    destruct (msg_sender env =? owner st); [|now left].
    destruct (txHash (tx_at st h') =? 0) eqn:E0; [now left|].
    destruct (bool_decide (status (tx_at st h') = Held)); [|now left].
    rewrite tx_at_log, tx_at_transition.
    destruct (decide (h' = h)) as [->|]; [|now left].
    apply N.eqb_neq in E0. right; right. simpl. auto.
  - rewrite completeTransaction_run.
    destruct (msg_sender env =? owner st); [|now left].
    destruct (txHash (tx_at st h') =? 0) eqn:E0; [now left|].
    destruct (bool_decide (status (tx_at st h') = Verified)); [|now left].
    rewrite tx_at_log, tx_at_transition.
    destruct (decide (h' = h)) as [->|]; [|now left].
    apply N.eqb_neq in E0. right; right. simpl. auto.
  - rewrite setRelayer_run. left. case_guards; reflexivity.
  - rewrite transferOwnership_run. left. case_guards; reflexivity.
Qed.

Lemma execs_app cs1 cs2 st : execs (cs1 ++ cs2) st = execs cs2 (execs cs1 st).
Proof. unfold execs. apply fold_left_app. Qed.

Lemma execs_snoc cs c st : execs (cs ++ [c]) st = exec c (execs cs st).
Proof. rewrite execs_app. reflexivity. Qed.

Lemma stored_ok_constructor d : stored_ok (constructor d).
Proof. intros h. rewrite tx_at_empty. simpl. auto. Qed.

Lemma stored_ok_exec c st : stored_ok st -> stored_ok (exec c st).
Proof.
  intros Hst h. destruct (Hst h) as [Hkey Hzero].
  destruct (exec_tx_at c st h) as [->|[(_ & Hh & Hs & Hr)|(Hnz & Hh & _)]].
  - auto.
  - rewrite Hh, Hs, Hr. auto.
  - rewrite Hh. split; [auto|]. intros; contradiction.
Qed.

Lemma stored_ok_execs cs st : stored_ok st -> stored_ok (execs cs st).
Proof.
  revert st. induction cs as [|c cs IH]; intros st Hst; simpl; [exact Hst|].
  apply IH, stored_ok_exec, Hst.
Qed.

Lemma stored_ok_reachable d cs : stored_ok (execs cs (constructor d)).
Proof. apply stored_ok_execs, stored_ok_constructor. Qed.

(** Once the hash field of a record is nonzero, no call changes its hash,
    sender, amount or creation time. *)
Lemma exec_keeps_identity c st h :
  txHash (tx_at st h) <> 0 ->
  txHash (tx_at (exec c st) h) = txHash (tx_at st h) /\
  sender (tx_at (exec c st) h) = sender (tx_at st h) /\
  amount (tx_at (exec c st) h) = amount (tx_at st h) /\
  timestamp (tx_at (exec c st) h) = timestamp (tx_at st h).
Proof.
  intros Hnz.
  destruct (exec_tx_at c st h) as [->|[(Hz & _)|(_ & H)]];
    [auto | contradiction | exact H].
Qed.

Lemma execs_keeps_identity cs st h :
  txHash (tx_at st h) <> 0 ->
  txHash (tx_at (execs cs st) h) = txHash (tx_at st h) /\
  sender (tx_at (execs cs st) h) = sender (tx_at st h) /\
  amount (tx_at (execs cs st) h) = amount (tx_at st h) /\
  timestamp (tx_at (execs cs st) h) = timestamp (tx_at st h).
Proof.
  revert st. induction cs as [|c cs IH]; intros st Hnz; simpl; [auto|].
  destruct (exec_keeps_identity c st h Hnz) as (H1 & H2 & H3 & H4).
  destruct (IH (exec c st)) as (K1 & K2 & K3 & K4); [congruence|].
  repeat split; congruence.
Qed.

Lemma exec_reverted env op st r :
  run (dispatch env op) st = Reverted r -> exec (env, op) st = st.
Proof. intros H. rewrite exec_unfold, H. reflexivity. Qed.

Lemma exec_ok env op st st' :
  run (dispatch env op) st = Ok st' -> exec (env, op) st = st'.
Proof. intros H. rewrite exec_unfold, H. reflexivity. Qed.

(** ** Uniqueness of submissions *)

(** The duplicate guard on nonzero hashes: for every nonzero hash [h], once
    [submitTxHash h s a]
    has succeeded, then after any further sequence of calls every
    [submitTxHash h s' a'], whoever the caller and whatever the sender and
    amount, reverts with "Transaction already exists" (a DuplicateError) and
    leaves the state as it was; the record under [h] still carries the hash,
    sender, amount and creation time of the first submission. *)
Theorem submitTxHash_unique env h s a st st1 :
  h <> 0 ->
  run (submitTxHash env h s a) st = Ok st1 ->
  forall cs env' s' a',
    let st2 := execs cs st1 in
    run (submitTxHash env' h s' a') st2 = Reverted AlreadyExists /\
    kind AlreadyExists = DuplicateError /\
    exec (env', SubmitTxHash h s' a') st2 = st2 /\
    txHash (tx_at st2 h) = h /\
    sender (tx_at st2 h) = s /\
    amount (tx_at st2 h) = a /\
    timestamp (tx_at st2 h) = block_timestamp env.
Proof.
  intros Hh Hrun cs env' s' a' st2.
  rewrite submitTxHash_run in Hrun.
  destruct (txHash (tx_at st h) =? 0); [|discriminate].
  destruct (0 <? a); [|discriminate].
  injection Hrun as Hst1.
  assert (Hnew : tx_at st1 h
                 = mkTransaction h s a (block_timestamp env) Pending "")
    by (rewrite <- Hst1, tx_at_log; apply tx_at_set_tx_eq).
  destruct (execs_keeps_identity cs st1 h) as (K1 & K2 & K3 & K4);
    [rewrite Hnew; exact Hh|].
  fold st2 in K1, K2, K3, K4. rewrite Hnew in K1, K2, K3, K4. simpl in *.
  assert (Hrev : run (submitTxHash env' h s' a') st2 = Reverted AlreadyExists).
  { rewrite submitTxHash_run, K1.
    destruct (h =? 0) eqn:E; [apply N.eqb_eq in E; contradiction|reflexivity]. }
  repeat split; try assumption.
  apply (exec_reverted env' (SubmitTxHash h s' a') st2 AlreadyExists Hrev).
Qed.

Lemma submitTxHash_unique_witness :
  7 <> 0 /\
  run (submitTxHash user_env 7 2 50) (constructor 1) = Ok submitted /\
  run (submitTxHash stranger_env 7 4 9)
      (execs [(deployer_env, SetVerification 7 true "ok")] submitted)
  = Reverted AlreadyExists.
Proof.
  assert (H1 : 7 <> 0) by discriminate.
  assert (H2 : run (submitTxHash user_env 7 2 50) (constructor 1)
               = Ok submitted) by reflexivity.
  split; [exact H1|]. split; [exact H2|].
  apply (submitTxHash_unique user_env 7 2 50 (constructor 1) submitted H1 H2
           [(deployer_env, SetVerification 7 true "ok")] stranger_env 4 9).
Defined.

(** C1, uniqueness of submissions, is broken by the contract at the
    all-zero hash.  The duplicate guard reads the hash field of the stored
    record and takes zero for "no record"; the record stored by a
    successful [submitTxHash 0 2 5] has a zero hash field, so a second
    submission of hash 0, here by another caller with another sender and
    amount, is not refused with "Transaction already exists": it goes
    through and replaces the record of the first. *)
Lemma submitTxHash_unique_fails_at_zero :
  run (submitTxHash user_env 0 2 5) (constructor 1) = Ok zero_submitted /\
  run (submitTxHash stranger_env 0 4 9) zero_submitted
    <> Reverted AlreadyExists /\
  tx_at (exec (stranger_env, SubmitTxHash 0 4 9) zero_submitted) 0
    <> tx_at zero_submitted 0 /\
  succeeds (submitTxHash stranger_env 0 4 9) zero_submitted = true /\
  tx_at zero_submitted 0 = mkTransaction 0 2 5 200 Pending "" /\
  tx_at (exec (stranger_env, SubmitTxHash 0 4 9) zero_submitted) 0
  = mkTransaction 0 4 9 300 Pending "".
Proof.
  split; [reflexivity|]. split; [|split; [|repeat split]].
  - rewrite submitTxHash_run. vm_compute. discriminate.
  - vm_compute. discriminate.
Qed.

(** ** Terminal statuses *)

Lemma exec_terminal_kept env op st h :
  stored_ok st ->
  terminal (status (tx_at st h)) = true ->
  verifies h op = false ->
  status (tx_at (exec (env, op) st) h) = status (tx_at st h).
Proof.
  intros Hst Hterm Hop. destruct (Hst h) as [_ Hzero].
  rewrite exec_unfold.
  destruct op as [h' s a|h' v r|h' r|h' v r|h'|a b|a]; simpl in *.
  - rewrite submitTxHash_run.
    destruct (txHash (tx_at st h') =? 0) eqn:E0; [|reflexivity].
    destruct (0 <? a); [|reflexivity].
    rewrite tx_at_log, tx_at_set_tx.
    destruct (decide (h' = h)) as [->|]; [|reflexivity].
    apply N.eqb_eq in E0. destruct (Hzero E0) as [Hp _].
    rewrite Hp in Hterm. discriminate.
  - rewrite setVerification_run. apply N.eqb_neq in Hop.
    destruct (isAuthorizedRelayer st (msg_sender env)); [|reflexivity].
    destruct (txHash (tx_at st h') =? 0); [reflexivity|].
    rewrite tx_at_log, tx_at_transition.
    destruct (decide (h' = h)); [contradiction|reflexivity].
  - rewrite holdTransaction_run.
    destruct (isAuthorizedRelayer st (msg_sender env)); [|reflexivity].
    destruct (txHash (tx_at st h') =? 0); [reflexivity|].
    destruct (bool_decide (status (tx_at st h') = Pending)) eqn:Eg;
      [|reflexivity].
    rewrite tx_at_log, tx_at_transition.
    destruct (decide (h' = h)) as [->|]; [|reflexivity].
    apply bool_decide_eq_true in Eg. rewrite Eg in Hterm. discriminate.
  - rewrite releaseHeldTransaction_run.
    destruct (msg_sender env =? owner st); [|reflexivity].
    destruct (txHash (tx_at st h') =? 0); [reflexivity|].
    destruct (bool_decide (status (tx_at st h') = Held)) eqn:Eg;
      [|reflexivity].
    rewrite tx_at_log, tx_at_transition.
    destruct (decide (h' = h)) as [->|]; [|reflexivity].
    apply bool_decide_eq_true in Eg. rewrite Eg in Hterm. discriminate.
  - rewrite completeTransaction_run.
    destruct (msg_sender env =? owner st); [|reflexivity].
    destruct (txHash (tx_at st h') =? 0); [reflexivity|].
    destruct (bool_decide (status (tx_at st h') = Verified)) eqn:Eg;
      [|reflexivity].
    rewrite tx_at_log, tx_at_transition.
    destruct (decide (h' = h)) as [->|]; [|reflexivity].
    apply bool_decide_eq_true in Eg. rewrite Eg in Hterm. discriminate.
  - rewrite setRelayer_run. case_guards; reflexivity.
  - rewrite transferOwnership_run. case_guards; reflexivity.
Qed.

(** C2, as amended: in every state reachable from deployment, a record
    whose status is Rejected or Completed keeps that status through every
    sequence of calls to submitTxHash, holdTransaction,
    releaseHeldTransaction, completeTransaction, setRelayer and
    transferOwnership, and through setVerification aimed at other hashes;
    only a setVerification on the record itself is left out. *)
Theorem terminal_status_kept d cs h cs' :
  terminal (status (tx_at (execs cs (constructor d)) h)) = true ->
  forallb (fun c => negb (verifies h (snd c))) cs' = true ->
  status (tx_at (execs cs' (execs cs (constructor d))) h)
  = status (tx_at (execs cs (constructor d)) h).
Proof.
  generalize (stored_ok_reachable d cs).
  generalize (execs cs (constructor d)). intros st Hst Hterm Hcs'.
  revert st Hst Hterm.
  induction cs' as [|[env op] cs' IH]; intros st Hst Hterm; simpl; [reflexivity|].
  simpl in Hcs'. apply andb_prop in Hcs' as [Hop Hrest].
  apply negb_true_iff in Hop.
  pose proof (exec_terminal_kept env op st h Hst Hterm Hop) as Hstep.
  rewrite (IH Hrest (exec (env, op) st)).
  - exact Hstep.
  - apply stored_ok_exec, Hst.
  - rewrite Hstep. exact Hterm.
Qed.

Lemma terminal_status_kept_witness :
  terminal (status (tx_at (execs [(user_env, SubmitTxHash 7 2 50);
                                  (deployer_env, SetVerification 7 false "fraud")]
                             (constructor 1)) 7)) = true /\
  status (tx_at (execs [(deployer_env, HoldTransaction 7 "again");
                        (deployer_env, CompleteTransaction 7);
                        (user_env, SubmitTxHash 7 2 60);
                        (deployer_env, SetVerification 8 true "other")]
                   (execs [(user_env, SubmitTxHash 7 2 50);
                           (deployer_env, SetVerification 7 false "fraud")]
                      (constructor 1))) 7)
  = Rejected.
Proof.
  split; [reflexivity|].
  rewrite (terminal_status_kept 1
             [(user_env, SubmitTxHash 7 2 50);
              (deployer_env, SetVerification 7 false "fraud")] 7
             [(deployer_env, HoldTransaction 7 "again");
              (deployer_env, CompleteTransaction 7);
              (user_env, SubmitTxHash 7 2 60);
              (deployer_env, SetVerification 8 true "other")]
             eq_refl eq_refl).
  reflexivity.
Defined.

(** C2, as stated, fails: a relayer's setVerification moves a Rejected
    record to Verified, and a Completed record to Rejected. *)
Lemma terminal_status_overwritten :
  status (tx_at rejected 7) = Rejected /\
  status (tx_at (exec (deployer_env, SetVerification 7 true "ok") rejected) 7)
  = Verified /\
  status (tx_at completed 7) = Completed /\
  status (tx_at (exec (deployer_env, SetVerification 7 false "late") completed) 7)
  = Rejected.
Proof. repeat split; vm_compute; reflexivity. Qed.

(** ** setVerification *)



(** ** State-guarded transitions *)



(** ** Role gating *)

(** C5: a relayer-only entry point (setVerification, holdTransaction)
    called by an address that is neither the primary relayer nor in
    authorizedRelayers reverts with "Only relayer can call this function",
    and an owner-only entry point (releaseHeldTransaction,
    completeTransaction, setRelayer, transferOwnership) called by an address
    other than the owner reverts with "Only owner can call this function";
    both are AuthorizationErrors and the whole state is left as it was. *)
Theorem role_gating env op st :
  (relayerOnly op = true /\
   msg_sender env <> relayer st /\
   authorized_at st (msg_sender env) = false) \/
  (ownerOnly op = true /\ msg_sender env <> owner st) ->
  run (dispatch env op) st
  = Reverted (if relayerOnly op then OnlyRelayer else OnlyOwner) /\
  kind (if relayerOnly op then OnlyRelayer else OnlyOwner)
  = AuthorizationError /\
  exec (env, op) st = st.
Proof.
  intros Hgate.
  assert (Hrun : run (dispatch env op) st
                 = Reverted (if relayerOnly op then OnlyRelayer else OnlyOwner)).
  { destruct Hgate as [(Hop & Hrel & Hset)|(Hop & Hown)].
    - assert (Hauth : isAuthorizedRelayer st (msg_sender env) = false).
      { unfold isAuthorizedRelayer. apply N.eqb_neq in Hrel.
        rewrite Hrel, Hset. reflexivity. }
      destruct op; try discriminate Hop; simpl.
      + rewrite setVerification_run, Hauth. reflexivity.
      + rewrite holdTransaction_run, Hauth. reflexivity.
    - apply N.eqb_neq in Hown.
      destruct op; try discriminate Hop; simpl.
      + rewrite releaseHeldTransaction_run, Hown. reflexivity.
      + rewrite completeTransaction_run, Hown. reflexivity.
      + rewrite setRelayer_run, Hown. reflexivity.
      + rewrite transferOwnership_run, Hown. reflexivity. }
  split; [exact Hrun|]. split.
  - destruct (relayerOnly op); reflexivity.
  - apply (exec_reverted env op st _ Hrun).
Qed.

Lemma role_gating_witness :
  (ownerOnly (TransferOwnership 3) = true /\
   msg_sender stranger_env <> owner submitted) /\
  run (dispatch stranger_env (TransferOwnership 3)) submitted
  = Reverted OnlyOwner /\
  exec (stranger_env, TransferOwnership 3) submitted = submitted.
Proof.
  assert (H : ownerOnly (TransferOwnership 3) = true /\
              msg_sender stranger_env <> owner submitted)
    by (split; [reflexivity|discriminate]).
  split; [exact H|].
  destruct (role_gating stranger_env (TransferOwnership 3) submitted
              (or_intror H)) as (Hrun & _ & Hst).
  split; [exact Hrun|exact Hst].
Defined.

(** ** Reads *)

Lemma getTransactionStatus_cases st h :
  getTransactionStatus st h =
  if recordExists st h then
    match status (tx_at st h) with
    | Pending => "PENDING"
    | Held => "HELD"
    | Verified => "VERIFIED"
    | Rejected => "REJECTED"
    | Completed => "COMPLETED"
    end
  else "NOT_FOUND".
Proof.
  unfold getTransactionStatus, recordExists.
  destruct (txHash (tx_at st h) =? 0); simpl; [reflexivity|].
  destruct (status (tx_at st h)); reflexivity.
Qed.

(** C6: the two reads are plain functions of the state.
    getTransactionStatus always returns one of the six status strings, each
    of the six is returned in some reachable state, and it returns
    "NOT_FOUND" when the existence test fails, in particular for a hash
    never written; isHeld on a hash never written returns (false, ""), and
    so it does in every reachable state on a hash whose existence test
    fails. *)
Theorem reads_total :
  (forall st h, In (getTransactionStatus st h) statusStrings) /\
  Forall (fun s => exists cs h,
            getTransactionStatus (execs cs (constructor 1)) h = s)
         statusStrings /\
  (forall st h,
     recordExists st h = false -> getTransactionStatus st h = "NOT_FOUND") /\
  (forall st h,
     transactions st !! h = None ->
     getTransactionStatus st h = "NOT_FOUND" /\ isHeld st h = (false, "")) /\
  (forall d cs h,
     recordExists (execs cs (constructor d)) h = false ->
     isHeld (execs cs (constructor d)) h = (false, "")).
Proof.
  split; [|split; [|split; [|split]]].
  - intros st h. rewrite getTransactionStatus_cases. unfold statusStrings.
    destruct (recordExists st h); [|simpl; auto].
    destruct (status (tx_at st h)); simpl; auto 10.
  - unfold statusStrings. repeat constructor.
    + exists [], 7. reflexivity.
    + exists [(user_env, SubmitTxHash 7 2 50)], 7. reflexivity.
    + exists [(user_env, SubmitTxHash 7 2 50);
              (deployer_env, HoldTransaction 7 "manual review")], 7.
      reflexivity.
    + exists [(user_env, SubmitTxHash 7 2 50);
              (deployer_env, SetVerification 7 true "ok")], 7.
      reflexivity.
    + exists [(user_env, SubmitTxHash 7 2 50);
              (deployer_env, SetVerification 7 false "fraud")], 7.
      reflexivity.
    + exists [(user_env, SubmitTxHash 7 2 50);
              (deployer_env, SetVerification 7 true "ok");
              (deployer_env, CompleteTransaction 7)], 7.
      reflexivity.
  - intros st h Hex. rewrite getTransactionStatus_cases, Hex. reflexivity.
  - intros st h Hnone.
    unfold getTransactionStatus, isHeld, tx_at. rewrite Hnone. split; reflexivity.
  - intros d cs h Hex.
    destruct (stored_ok_reachable d cs h) as [_ Hzero].
    unfold recordExists in Hex. apply negb_false_iff, N.eqb_eq in Hex.
    destruct (Hzero Hex) as [Hs Hr].
    unfold isHeld. rewrite Hs, Hr. reflexivity.
Qed.

Lemma reads_total_witness :
  transactions submitted !! 8 = None /\
  getTransactionStatus submitted 8 = "NOT_FOUND" /\
  isHeld submitted 8 = (false, "").
Proof.
  assert (H : transactions submitted !! 8 = None) by reflexivity.
  split; [exact H|].
  destruct reads_total as (_ & _ & _ & Habsent & _).
  exact (Habsent submitted 8 H).
Defined.

(** ** Validation of the amount *)



(** ** Owner and primary relayer are never the zero address *)

Lemma exec_keeps_nonzero c st :
  owner st <> 0 -> relayer st <> 0 ->
  owner (exec c st) <> 0 /\ relayer (exec c st) <> 0.
Proof.
  intros Ho Hr. destruct c as [env op]. rewrite exec_unfold.
  destruct op as [h s a|h v r|h r|h v r|h|a b|a]; simpl.
  - rewrite submitTxHash_run. case_guards; simpl; auto.
  - rewrite setVerification_run. case_guards; simpl; auto.
  - rewrite holdTransaction_run. case_guards; simpl; auto.
  - rewrite releaseHeldTransaction_run. case_guards; simpl; auto.
  - rewrite completeTransaction_run. case_guards; simpl; auto.
  - rewrite setRelayer_run.
    destruct (msg_sender env =? owner st); [|auto].
    destruct (a =? 0) eqn:Ea; [auto|]. apply N.eqb_neq in Ea.
    destruct b; [simpl; auto|].
    destruct (relayer st =? a); simpl; auto.
  - rewrite transferOwnership_run.
    destruct (msg_sender env =? owner st); [|auto].
    destruct (a =? 0) eqn:Ea; [auto|]. apply N.eqb_neq in Ea.
    simpl; auto.
Qed.

(** C8: after deployment by a nonzero address and any sequence of calls,
    neither [owner] nor the primary relayer is the zero address. *)
Theorem owner_relayer_nonzero d cs :
  d <> 0 ->
  owner (execs cs (constructor d)) <> 0 /\
  relayer (execs cs (constructor d)) <> 0.
Proof.
  intros Hd.
  assert (H0 : owner (constructor d) <> 0 /\ relayer (constructor d) <> 0)
    by (simpl; auto).
  revert H0. generalize (constructor d).
  induction cs as [|c cs IH]; intros st [Ho Hr]; simpl; [auto|].
  apply IH, exec_keeps_nonzero; assumption.
Qed.

Lemma owner_relayer_nonzero_witness :
  1 <> 0 /\
  relayer (execs [(deployer_env, SetRelayer 2 true);
                  (deployer_env, TransferOwnership 3);
                  (stranger_env, SetRelayer 2 false)] (constructor 1)) <> 0.
Proof.
  assert (H : 1 <> 0) by discriminate.
  split; [exact H|].
  apply (owner_relayer_nonzero 1
           [(deployer_env, SetRelayer 2 true);
            (deployer_env, TransferOwnership 3);
            (stranger_env, SetRelayer 2 false)] H).
Defined.

(** ** The all-zero hash *)

Lemma submit_zero_hash env s a st :
  stored_ok st -> 0 < a ->
  exists st',
    run (submitTxHash env 0 s a) st = Ok st' /\
    tx_at st' 0 = mkTransaction 0 s a (block_timestamp env) Pending "" /\
    getTransactionStatus st' 0 = "NOT_FOUND".
Proof.
  intros Hst Ha.
  assert (Hz : txHash (tx_at st 0) = 0) by (destruct (Hst 0) as [[H|H] _]; exact H).
  apply N.ltb_lt in Ha.
  eexists. split; [|split].
  - rewrite submitTxHash_run, Hz, Ha. reflexivity.
  - rewrite tx_at_log. apply tx_at_set_tx_eq.
  - unfold getTransactionStatus. rewrite tx_at_log, tx_at_set_tx_eq. reflexivity.
Qed.

(** C9: in every reachable state submitTxHash of the all-zero hash with a
    positive amount succeeds, and it succeeds again after any further calls
    although a record for hash 0 was created, the later submission
    replacing the record of the earlier one; getTransactionStatus of hash 0
    is "NOT_FOUND" right after each of the two submissions. *)
Theorem zero_hash_resubmission d cs env1 s1 a1 cs' env2 s2 a2 :
  0 < a1 -> 0 < a2 ->
  exists st1 st2,
    run (submitTxHash env1 0 s1 a1) (execs cs (constructor d)) = Ok st1 /\
    tx_at st1 0 = mkTransaction 0 s1 a1 (block_timestamp env1) Pending "" /\
    getTransactionStatus st1 0 = "NOT_FOUND" /\
    run (submitTxHash env2 0 s2 a2) (execs cs' st1) = Ok st2 /\
    tx_at st2 0 = mkTransaction 0 s2 a2 (block_timestamp env2) Pending "" /\
    getTransactionStatus st2 0 = "NOT_FOUND".
Proof.
  intros Ha1 Ha2.
  pose proof (stored_ok_reachable d cs) as Hst.
  destruct (submit_zero_hash env1 s1 a1 _ Hst Ha1) as (st1 & Hrun1 & Htx1 & Hget1).
  assert (Hst1 : stored_ok (execs cs' st1)).
  { apply stored_ok_execs.
    rewrite <- (exec_ok env1 (SubmitTxHash 0 s1 a1) _ st1 Hrun1).
    apply stored_ok_exec, Hst. }
  destruct (submit_zero_hash env2 s2 a2 _ Hst1 Ha2) as (st2 & Hrun2 & Htx2 & Hget2).
  exists st1, st2. auto 10.
Qed.

Lemma zero_hash_resubmission_witness :
  0 < 5 /\ 0 < 9 /\
  exists st1 st2,
    run (submitTxHash user_env 0 2 5) (constructor 1) = Ok st1 /\
    run (submitTxHash stranger_env 0 3 9) st1 = Ok st2 /\
    sender (tx_at st2 0) = 3 /\
    getTransactionStatus st2 0 = "NOT_FOUND".
Proof.
  assert (H1 : 0 < 5) by reflexivity.
  assert (H2 : 0 < 9) by reflexivity.
  split; [exact H1|]. split; [exact H2|].
  destruct (zero_hash_resubmission 1 [] user_env 2 5 [] stranger_env 3 9 H1 H2)
    as (st1 & st2 & Hrun1 & _ & _ & Hrun2 & Htx2 & Hget2).
  exists st1, st2. rewrite Htx2. auto.
Defined.

(** ** Ownership transfer leaves the relayers alone *)

(** C10: a successful transferOwnership changes the owner field and nothing
    else: the primary relayer, the authorizedRelayers mapping, the records
    and the event log are as before, so every address, the previous owner
    and the new owner included, is an authorized relayer afterwards exactly
    if it was before; in particular a deployer who hands the fresh contract
    over is still an authorized relayer. *)
Theorem transferOwnership_frame :
  (forall env st newOwner st',
     run (transferOwnership env newOwner) st = Ok st' ->
     owner st' = newOwner /\
     relayer st' = relayer st /\
     authorizedRelayers st' = authorizedRelayers st /\
     transactions st' = transactions st /\
     events st' = events st /\
     (forall a, isAuthorizedRelayer st' a = isAuthorizedRelayer st a)) /\
  (forall d ts newOwner,
     newOwner <> 0 ->
     owner (exec (mkEnv d ts, TransferOwnership newOwner) (constructor d))
     = newOwner /\
     relayer (exec (mkEnv d ts, TransferOwnership newOwner) (constructor d))
     = d /\
     isAuthorizedRelayer
       (exec (mkEnv d ts, TransferOwnership newOwner) (constructor d)) d
     = true /\
     (newOwner <> d ->
      isAuthorizedRelayer
        (exec (mkEnv d ts, TransferOwnership newOwner) (constructor d)) newOwner
      = false)).
Proof.
  split.
  - intros env st newOwner st' Hrun.
    rewrite transferOwnership_run in Hrun.
    destruct (msg_sender env =? owner st); [|discriminate].
    destruct (newOwner =? 0); [discriminate|].
    injection Hrun as <-. repeat split.
  - intros d ts newOwner Hn.
    rewrite exec_unfold. simpl. rewrite transferOwnership_run. simpl.
    rewrite N.eqb_refl.
    apply N.eqb_neq in Hn. rewrite Hn.
    unfold isAuthorizedRelayer, authorized_at. simpl.
    repeat split.
    + rewrite N.eqb_refl. reflexivity.
    + intros Hne. apply N.eqb_neq in Hne. rewrite Hne. simpl.
      rewrite lookup_singleton_ne; [reflexivity|].
      apply N.eqb_neq in Hne. congruence.
Qed.

Lemma transferOwnership_frame_witness :
  run (transferOwnership deployer_env 3) submitted
  = Ok (exec (deployer_env, TransferOwnership 3) submitted) /\
  owner (exec (deployer_env, TransferOwnership 3) submitted) = 3 /\
  relayer (exec (deployer_env, TransferOwnership 3) submitted) = 1 /\
  isAuthorizedRelayer (exec (deployer_env, TransferOwnership 3) submitted) 3
  = false.
Proof.
  assert (H : run (transferOwnership deployer_env 3) submitted
              = Ok (exec (deployer_env, TransferOwnership 3) submitted))
    by reflexivity.
  split; [exact H|].
  destruct (proj1 transferOwnership_frame deployer_env submitted 3 _ H)
    as (Ho & Hr & _ & _ & _ & Hauth).
  split; [exact Ho|]. split; [rewrite Hr; reflexivity|].
  rewrite Hauth. reflexivity.
Defined.

(** ** The contract's test suite, replayed on the model *)

Example deployment_sets_owner_and_relayer :
  owner (constructor 1) = 1 /\ relayer (constructor 1) = 1.
Proof. split; reflexivity. Qed.

Example submission_is_pending :
  getTransactionStatus (exec (user_env, SubmitTxHash 7 2 50) fixture) 7
  = "PENDING".
Proof. reflexivity. Qed.

Example duplicate_submission_reverts :
  revertedWith (submitTxHash user_env 7 2 50)
    (exec (user_env, SubmitTxHash 7 2 50) fixture)
  = Some "Transaction already exists".
Proof. reflexivity. Qed.

Example relayer_verifies_and_rejects :
  getTransactionStatus
    (execs [(user_env, SubmitTxHash 7 2 50);
            (relayer_env, SetVerification 7 true "Verified")] fixture) 7
  = "VERIFIED" /\
  getTransactionStatus
    (execs [(user_env, SubmitTxHash 7 2 50);
            (relayer_env, SetVerification 7 false "Suspicious activity detected")]
       fixture) 7
  = "REJECTED".
Proof. split; reflexivity. Qed.

Example stranger_cannot_verify :
  revertedWith (setVerification stranger_env 7 true "Should fail")
    (exec (user_env, SubmitTxHash 7 2 50) fixture)
  = Some "Only relayer can call this function".
Proof. reflexivity. Qed.

Example hold_then_release :
  getTransactionStatus
    (execs [(user_env, SubmitTxHash 7 2 50);
            (relayer_env, HoldTransaction 7 "High risk transaction")]
       fixture) 7
  = "HELD" /\
  getTransactionStatus
    (execs [(user_env, SubmitTxHash 7 2 50);
            (relayer_env, HoldTransaction 7 "High risk transaction");
            (deployer_env, ReleaseHeldTransaction 7 true "Approved")]
       fixture) 7
  = "VERIFIED" /\
  revertedWith (releaseHeldTransaction stranger_env 7 true "Should fail")
    (execs [(user_env, SubmitTxHash 7 2 50);
            (relayer_env, HoldTransaction 7 "High risk transaction")]
       fixture)
  = Some "Only owner can call this function".
Proof. repeat split; reflexivity. Qed.

Example access_control :
  owner (exec (deployer_env, TransferOwnership 2) fixture) = 2 /\
  revertedWith (transferOwnership user_env 2) fixture
  = Some "Only owner can call this function" /\
  authorized_at (exec (deployer_env, SetRelayer 3 true) fixture) 3 = true /\
  authorized_at
    (execs [(deployer_env, SetRelayer 3 true);
            (deployer_env, SetRelayer 3 false)] fixture) 3
  = false /\
  revertedWith (setRelayer user_env 3 true) fixture
  = Some "Only owner can call this function".
Proof. repeat split; reflexivity. Qed.

(** * Further properties of the contract *)

(** ** Calls on a record that is not there *)

(** For a caller that passes the role check, each of setVerification,
    holdTransaction, releaseHeldTransaction and completeTransaction on a
    hash whose existence test fails reverts with "Transaction does not
    exist", and nothing changes. *)
Theorem missing_record_reverts envR envO st h v r :
  recordExists st h = false ->
  isAuthorizedRelayer st (msg_sender envR) = true ->
  msg_sender envO = owner st ->
  run (setVerification envR h v r) st = Reverted DoesNotExist /\
  run (holdTransaction envR h r) st = Reverted DoesNotExist /\
  run (releaseHeldTransaction envO h v r) st = Reverted DoesNotExist /\
  run (completeTransaction envO h) st = Reverted DoesNotExist /\
  kind DoesNotExist = NotFoundError /\
  exec (envR, SetVerification h v r) st = st /\
  exec (envR, HoldTransaction h r) st = st /\
  exec (envO, ReleaseHeldTransaction h v r) st = st /\
  exec (envO, CompleteTransaction h) st = st.
Proof.
  intros Hex Hauth Hown. unfold recordExists in Hex.
  apply negb_false_iff in Hex. apply N.eqb_eq in Hown.
  rewrite !exec_unfold. simpl.
  rewrite setVerification_run, holdTransaction_run, releaseHeldTransaction_run,
    completeTransaction_run, Hauth, Hown, Hex.
  repeat split.
Qed.

Lemma missing_record_reverts_witness :
  recordExists submitted 8 = false /\
  isAuthorizedRelayer submitted (msg_sender deployer_env) = true /\
  msg_sender deployer_env = owner submitted /\
  run (holdTransaction deployer_env 8 "x") submitted = Reverted DoesNotExist.
Proof.
  assert (H1 : recordExists submitted 8 = false) by reflexivity.
  assert (H2 : isAuthorizedRelayer submitted (msg_sender deployer_env) = true)
    by reflexivity.
  assert (H3 : msg_sender deployer_env = owner submitted) by reflexivity.
  split; [exact H1|]. split; [exact H2|]. split; [exact H3|].
  apply (missing_record_reverts deployer_env deployer_env submitted 8 true "x"
           H1 H2 H3).
Defined.

(** In every reachable state none of the four transition entry points
    goes through on the all-zero hash, whoever calls: a record submitted
    under hash 0 stays Pending with an empty reason for good. *)
Theorem zero_hash_frozen d cs env v r :
  succeeds (setVerification env 0 v r) (execs cs (constructor d)) = false /\
  succeeds (holdTransaction env 0 r) (execs cs (constructor d)) = false /\
  succeeds (releaseHeldTransaction env 0 v r) (execs cs (constructor d)) = false /\
  succeeds (completeTransaction env 0) (execs cs (constructor d)) = false /\
  status (tx_at (execs cs (constructor d)) 0) = Pending /\
  reason (tx_at (execs cs (constructor d)) 0) = "".
Proof.
  destruct (stored_ok_reachable d cs 0) as [Hkey Hzero].
  assert (Hz : txHash (tx_at (execs cs (constructor d)) 0) = 0)
    by (destruct Hkey; assumption).
  destruct (Hzero Hz) as [Hs Hr].
  unfold succeeds.
  rewrite setVerification_run, holdTransaction_run, releaseHeldTransaction_run,
    completeTransaction_run, Hz. simpl.
  destruct (isAuthorizedRelayer (execs cs (constructor d)) (msg_sender env)),
    (msg_sender env =? owner (execs cs (constructor d)));
    repeat split; assumption.
Qed.

(** ** The event log *)

Lemma tx_at_set_tx_eqb h h' t st :
  tx_at (set_tx h t st) h' = if h =? h' then t else tx_at st h'.
Proof.
  rewrite tx_at_set_tx.
  destruct (N.eqb_spec h h'), (decide (h = h')); congruence.
Qed.

(** What a call does to the log and to a record, in terms of the events
    it emits. *)
Lemma exec_effect env op st h :
  events (exec (env, op) st)
  = (events st
     ++ (if succeeds (dispatch env op) st then emitted env op else []))%list
  /\
  tx_at (exec (env, op) st) h
  = fold_left (apply_event h)
      (if succeeds (dispatch env op) st then emitted env op else [])
      (tx_at st h).
Proof.
  unfold succeeds. rewrite exec_unfold.
  destruct op as [h' s a|h' v r|h' r|h' v r|h'|a b|a]; simpl.
  - rewrite submitTxHash_run.
    destruct (txHash (tx_at st h') =? 0); [|rewrite app_nil_r; auto].
    destruct (0 <? a); [|rewrite app_nil_r; auto].
    simpl. rewrite tx_at_log, tx_at_set_tx_eqb. auto.
  - rewrite setVerification_run.
    destruct (isAuthorizedRelayer st (msg_sender env)); [|rewrite app_nil_r; auto].
    destruct (txHash (tx_at st h') =? 0); [rewrite app_nil_r; auto|].
    simpl. unfold transition. rewrite tx_at_log, tx_at_set_tx_eqb.
    destruct (N.eqb_spec h' h) as [->|]; auto.
  - rewrite holdTransaction_run.
    destruct (isAuthorizedRelayer st (msg_sender env)); [|rewrite app_nil_r; auto].
    destruct (txHash (tx_at st h') =? 0); [rewrite app_nil_r; auto|].
    destruct (bool_decide (status (tx_at st h') = Pending));
      [|rewrite app_nil_r; auto].
    simpl. unfold transition. rewrite tx_at_log, tx_at_set_tx_eqb.
    destruct (N.eqb_spec h' h) as [->|]; auto.
  - rewrite releaseHeldTransaction_run.
    destruct (msg_sender env =? owner st); [|rewrite app_nil_r; auto].
    destruct (txHash (tx_at st h') =? 0); [rewrite app_nil_r; auto|].
    destruct (bool_decide (status (tx_at st h') = Held));
      [|rewrite app_nil_r; auto].
    simpl. unfold transition. rewrite tx_at_log, tx_at_set_tx_eqb.
    destruct (N.eqb_spec h' h) as [->|]; auto.
  - rewrite completeTransaction_run.
    destruct (msg_sender env =? owner st); [|rewrite app_nil_r; auto].
    destruct (txHash (tx_at st h') =? 0); [rewrite app_nil_r; auto|].
    destruct (bool_decide (status (tx_at st h') = Verified));
      [|rewrite app_nil_r; auto].
    simpl. unfold transition. rewrite tx_at_log, tx_at_set_tx_eqb.
    destruct (N.eqb_spec h' h) as [->|]; auto.
  - rewrite setRelayer_run.
    assert (Hnil : forall b : bool, (if b then @nil Event else []) = [])
      by (intros []; reflexivity).
    case_guards; simpl; rewrite ?app_nil_r; auto.
  - rewrite transferOwnership_run.
    case_guards; simpl; rewrite ?app_nil_r; auto.
Qed.

(** A call that goes through appends exactly the events of its entry
    point to the log (one for each of the five registry entry points, none
    for setRelayer and transferOwnership); a call that reverts appends
    none. *)
Theorem events_of_a_call env op st :
  events (exec (env, op) st)
  = (events st
     ++ (if succeeds (dispatch env op) st then emitted env op else []))%list.
Proof. apply (proj1 (exec_effect env op st 0)). Qed.

(** The log is append-only: after any sequence of calls the old log is a
    prefix of the new one, and it grew by at most one event per call. *)
Theorem events_append_only cs st :
  exists l,
    events (execs cs st) = (events st ++ l)%list /\
    (List.length l <= List.length cs)%nat.
Proof.
  revert st. induction cs as [|[env op] cs IH]; intros st; simpl.
  - exists []. rewrite app_nil_r. auto.
  - destruct (IH (exec (env, op) st)) as (l & Hl & Hlen).
    rewrite Hl, (proj1 (exec_effect env op st 0)), <- app_assoc.
    eexists. split; [reflexivity|].
    rewrite length_app.
    destruct (succeeds (dispatch env op) st); [|simpl; lia].
    destruct op; simpl; lia.
Qed.

(** The log is complete: in every reachable state, every record of the
    ledger is the one an observer rebuilds from the events alone. *)
Theorem log_replays_ledger d cs h :
  tx_at (execs cs (constructor d)) h
  = replay (events (execs cs (constructor d))) h.
Proof.
  unfold replay.
  assert (H0 : tx_at (constructor d) h
               = fold_left (apply_event h) (events (constructor d))
                   zeroTransaction)
    by (rewrite tx_at_empty; reflexivity).
  revert H0. generalize (constructor d).
  induction cs as [|[env op] cs IH]; intros st Hst; simpl; [exact Hst|].
  apply IH.
  destruct (exec_effect env op st h) as [He Ht].
  rewrite He, Ht, fold_left_app, Hst. reflexivity.
Qed.

(** ** The status machine *)

Lemma exec_status_edge env op st h :
  stored_ok st ->
  status (tx_at (exec (env, op) st) h) = status (tx_at st h) \/
  edge (status (tx_at st h)) (status (tx_at (exec (env, op) st) h)) = true.
Proof.
  intros Hst. destruct (Hst h) as [_ Hzero]. rewrite exec_unfold.
  destruct op as [h' s a|h' v r|h' r|h' v r|h'|a b|a]; simpl.
  - rewrite submitTxHash_run.
    destruct (txHash (tx_at st h') =? 0) eqn:E0; [|now left].
    destruct (0 <? a); [|now left].
    rewrite tx_at_log, tx_at_set_tx.
    destruct (decide (h' = h)) as [->|]; [|now left].
    apply N.eqb_eq in E0. destruct (Hzero E0) as [-> _]. now left.
  - rewrite setVerification_run.
    destruct (isAuthorizedRelayer st (msg_sender env)); [|now left].
    destruct (txHash (tx_at st h') =? 0); [now left|].
    rewrite tx_at_log, tx_at_transition.
    destruct (decide (h' = h)) as [->|]; [|now left].
    right. simpl. destruct (status (tx_at st h)), v; reflexivity.
  - rewrite holdTransaction_run.
    destruct (isAuthorizedRelayer st (msg_sender env)); [|now left].
    destruct (txHash (tx_at st h') =? 0); [now left|].
    destruct (bool_decide (status (tx_at st h') = Pending)) eqn:Eg; [|now left].
    rewrite tx_at_log, tx_at_transition.
    destruct (decide (h' = h)) as [->|]; [|now left].
    apply bool_decide_eq_true in Eg. rewrite Eg. now right.
  - rewrite releaseHeldTransaction_run.
    destruct (msg_sender env =? owner st); [|now left].
    destruct (txHash (tx_at st h') =? 0); [now left|].
    destruct (bool_decide (status (tx_at st h') = Held)) eqn:Eg; [|now left].
    rewrite tx_at_log, tx_at_transition.
    destruct (decide (h' = h)) as [->|]; [|now left].
    apply bool_decide_eq_true in Eg. rewrite Eg. right. destruct v; reflexivity.
  - rewrite completeTransaction_run.
    destruct (msg_sender env =? owner st); [|now left].
    destruct (txHash (tx_at st h') =? 0); [now left|].
    destruct (bool_decide (status (tx_at st h') = Verified)) eqn:Eg; [|now left].
    rewrite tx_at_log, tx_at_transition.
    destruct (decide (h' = h)) as [->|]; [|now left].
    apply bool_decide_eq_true in Eg. rewrite Eg. now right.
  - rewrite setRelayer_run. left. case_guards; reflexivity.
  - rewrite transferOwnership_run. left. case_guards; reflexivity.
Qed.

(** In every reachable state a call leaves the status of a record as it
    is or moves it along an arrow of the machine: to Held only from
    Pending, to Completed only from Verified, to Verified or Rejected from
    anywhere, and never to Pending. *)
Theorem status_moves_along_edges d cs c h :
  status (tx_at (exec c (execs cs (constructor d))) h)
  = status (tx_at (execs cs (constructor d)) h) \/
  edge (status (tx_at (execs cs (constructor d)) h))
       (status (tx_at (exec c (execs cs (constructor d))) h)) = true.
Proof.
  destruct c as [env op].
  apply exec_status_edge, stored_ok_reachable.
Qed.

Lemma edge_stage s s' : edge s s' = true -> stage s <= stage s'.
Proof. destruct s, s'; simpl; intros H; try discriminate H; lia. Qed.

(** Records only move forward: along any sequence of calls from a
    reachable state a record never returns to Pending once it left it, and
    never returns to Held once a verdict was written. *)
Theorem stage_never_decreases d cs cs' h :
  stage (status (tx_at (execs cs (constructor d)) h))
  <= stage (status (tx_at (execs cs' (execs cs (constructor d))) h)).
Proof.
  generalize (stored_ok_reachable d cs).
  generalize (execs cs (constructor d)). intros st Hst.
  revert st Hst.
  induction cs' as [|[env op] cs' IH]; intros st Hst; simpl; [lia|].
  specialize (IH (exec (env, op) st) (stored_ok_exec _ _ Hst)).
  destruct (exec_status_edge env op st h Hst) as [Heq|Hedge].
  - rewrite <- Heq. exact IH.
  - apply edge_stage in Hedge. lia.
Qed.

(** ** Records are permanent *)

(** Once the existence test holds for a hash it holds after any sequence
    of calls, and the record keeps its hash, sender, amount and creation
    time: nothing deletes or re-files a record. *)
Theorem records_never_deleted cs st h :
  recordExists st h = true ->
  recordExists (execs cs st) h = true /\
  txHash (tx_at (execs cs st) h) = txHash (tx_at st h) /\
  sender (tx_at (execs cs st) h) = sender (tx_at st h) /\
  amount (tx_at (execs cs st) h) = amount (tx_at st h) /\
  timestamp (tx_at (execs cs st) h) = timestamp (tx_at st h).
Proof.
  intros Hex. unfold recordExists in *.
  apply negb_true_iff, N.eqb_neq in Hex.
  destruct (execs_keeps_identity cs st h Hex) as (K1 & K2 & K3 & K4).
  rewrite K1. repeat split; try assumption.
  apply negb_true_iff, N.eqb_neq, Hex.
Qed.

Lemma records_never_deleted_witness :
  recordExists submitted 7 = true /\
  amount (tx_at (execs [(deployer_env, HoldTransaction 7 "check");
                        (stranger_env, SubmitTxHash 7 3 1);
                        (deployer_env, ReleaseHeldTransaction 7 false "no")]
                   submitted) 7)
  = amount (tx_at submitted 7).
Proof.
  assert (H : recordExists submitted 7 = true) by reflexivity.
  split; [exact H|].
  apply (records_never_deleted
           [(deployer_env, HoldTransaction 7 "check");
            (stranger_env, SubmitTxHash 7 3 1);
            (deployer_env, ReleaseHeldTransaction 7 false "no")]
           submitted 7 H).
Defined.

(** ** What the ledger holds *)

Lemma submit_succeeds_inv env h s a st :
  succeeds (submitTxHash env h s a) st = true ->
  txHash (tx_at st h) = 0 /\ 0 < a.
Proof.
  unfold succeeds. rewrite submitTxHash_run.
  destruct (txHash (tx_at st h) =? 0) eqn:E0; [|discriminate].
  destruct (0 <? a) eqn:Ea; [|discriminate].
  intros _. split; [apply N.eqb_eq, E0|apply N.ltb_lt, Ea].
Qed.

Lemma record_ok_exec env op st h :
  record_ok h (tx_at st h) -> record_ok h (tx_at (exec (env, op) st) h).
Proof.
  intros Hok. destruct (exec_effect env op st h) as [_ ->].
  destruct (succeeds (dispatch env op) st) eqn:Hs; [|exact Hok].
  destruct Hok as [Hshape Hpending].
  destruct op as [h' s a|h' v r|h' r|h' v r|h'|a b|a]; simpl; try (split; assumption).
  - apply submit_succeeds_inv in Hs as [_ Ha].
    destruct (N.eqb_spec h' h) as [->|]; [|split; assumption].
    split; simpl; auto.
  - destruct (N.eqb_spec h' h) as [->|]; [|split; assumption].
    unfold recordExists in *. split; simpl.
    + destruct Hshape as [Hz|Hr]; [|right; exact Hr].
      exfalso. revert Hs. unfold succeeds. simpl.
      rewrite setVerification_run, Hz. simpl.
      destruct (isAuthorizedRelayer st (msg_sender env)); discriminate.
    + destruct v; discriminate.
  - destruct (N.eqb_spec h' h) as [->|]; [|split; assumption].
    split; simpl; [|discriminate].
    destruct Hshape as [Hz|Hr]; [|right; exact Hr].
    exfalso. revert Hs. unfold succeeds. simpl.
    rewrite holdTransaction_run, Hz. simpl.
      destruct (isAuthorizedRelayer st (msg_sender env)); discriminate.
  - destruct (N.eqb_spec h' h) as [->|]; [|split; assumption].
    split; simpl.
    + destruct Hshape as [Hz|Hr]; [|right; exact Hr].
      exfalso. revert Hs. unfold succeeds. simpl.
      rewrite releaseHeldTransaction_run, Hz. simpl.
      destruct (msg_sender env =? owner st); discriminate.
    + destruct v; discriminate.
  - destruct (N.eqb_spec h' h) as [->|]; [|split; assumption].
    split; simpl; [|discriminate].
    destruct Hshape as [Hz|Hr]; [|right; exact Hr].
    exfalso. revert Hs. unfold succeeds. simpl.
    rewrite completeTransaction_run, Hz. simpl.
      destruct (msg_sender env =? owner st); discriminate.
Qed.

Lemma record_ok_reachable d cs h :
  record_ok h (tx_at (execs cs (constructor d)) h).
Proof.
  assert (H0 : record_ok h (tx_at (constructor d) h))
    by (rewrite tx_at_empty; split; auto).
  revert H0. generalize (constructor d).
  induction cs as [|[env op] cs IH]; intros st Hst; simpl; [exact Hst|].
  apply IH, record_ok_exec, Hst.
Qed.

(** In every reachable state every slot of the ledger is either untouched
    or holds a record filed under its own hash with a positive amount, and
    a record whose status is Pending has the empty reason. *)
Theorem ledger_records_ok d cs h :
  record_ok h (tx_at (execs cs (constructor d)) h).
Proof. apply record_ok_reachable. Qed.

Lemma submission_count_exec env op st h :
  h <> 0 ->
  List.length (List.filter (submits h) (events st))
  = (if recordExists st h then 1 else 0)%nat ->
  List.length (List.filter (submits h) (events (exec (env, op) st)))
  = (if recordExists (exec (env, op) st) h then 1 else 0)%nat.
Proof.
  intros Hh Hcount. unfold recordExists in *.
  destruct (exec_effect env op st h) as [-> ->].
  rewrite List.filter_app, length_app, Hcount.
  destruct (succeeds (dispatch env op) st) eqn:Hs;
    [|simpl; rewrite Nat.add_0_r; reflexivity].
  destruct op as [h' s a|h' v r|h' r|h' v r|h'|a b|a]; simpl;
    try (destruct (h' =? h); simpl; rewrite Nat.add_0_r; reflexivity);
    try (rewrite Nat.add_0_r; reflexivity).
  apply submit_succeeds_inv in Hs as [Hz _].
  destruct (N.eqb_spec h' h) as [->|]; simpl;
    [|rewrite Nat.add_0_r; reflexivity].
  rewrite Hz. simpl.
  destruct (N.eqb_spec h 0); [contradiction|reflexivity].
Qed.

(** In every reachable state the log holds exactly one TxSubmitted event
    for each nonzero hash whose record exists and none for a nonzero hash
    whose record does not. *)
Theorem one_submission_per_record d cs h :
  h <> 0 ->
  List.length (List.filter (submits h) (events (execs cs (constructor d))))
  = (if recordExists (execs cs (constructor d)) h then 1 else 0)%nat.
Proof.
  intros Hh.
  assert (H0 : List.length (List.filter (submits h) (events (constructor d)))
               = (if recordExists (constructor d) h then 1 else 0)%nat)
    by (unfold recordExists; rewrite tx_at_empty; reflexivity).
  revert H0. generalize (constructor d).
  induction cs as [|[env op] cs IH]; intros st Hst; simpl; [exact Hst|].
  apply IH, submission_count_exec; assumption.
Qed.

Lemma one_submission_per_record_witness :
  7 <> 0 /\
  List.length
    (List.filter (submits 7)
       (events (execs [(user_env, SubmitTxHash 7 2 50);
                       (stranger_env, SubmitTxHash 7 3 9);
                       (deployer_env, SetVerification 7 true "ok")]
                  (constructor 1))))
  = 1%nat.
Proof.
  assert (H : 7 <> 0) by discriminate.
  split; [exact H|].
  apply (one_submission_per_record 1
           [(user_env, SubmitTxHash 7 2 50);
            (stranger_env, SubmitTxHash 7 3 9);
            (deployer_env, SetVerification 7 true "ok")] 7 H).
Defined.

(** ** Who can change what *)

Lemma exec_roles_frame env op st :
  msg_sender env <> owner st \/ administrative op = false ->
  owner (exec (env, op) st) = owner st /\
  relayer (exec (env, op) st) = relayer st /\
  authorizedRelayers (exec (env, op) st) = authorizedRelayers st.
Proof.
  intros Hwho. rewrite exec_unfold.
  destruct op as [h s a|h v r|h r|h v r|h|a b|a]; simpl in *.
  - rewrite submitTxHash_run.
    destruct (txHash (tx_at st h) =? 0), (0 <? a); auto.
  - rewrite setVerification_run.
    destruct (isAuthorizedRelayer st (msg_sender env)),
      (txHash (tx_at st h) =? 0); auto.
  - rewrite holdTransaction_run.
    destruct (isAuthorizedRelayer st (msg_sender env)),
      (txHash (tx_at st h) =? 0),
      (bool_decide (status (tx_at st h) = Pending)); auto.
  - rewrite releaseHeldTransaction_run.
    destruct (msg_sender env =? owner st), (txHash (tx_at st h) =? 0),
      (bool_decide (status (tx_at st h) = Held)); auto.
  - rewrite completeTransaction_run.
    destruct (msg_sender env =? owner st), (txHash (tx_at st h) =? 0),
      (bool_decide (status (tx_at st h) = Verified)); auto.
  - destruct Hwho as [Hne|Hadm]; [|discriminate Hadm].
    apply N.eqb_neq in Hne. rewrite setRelayer_run, Hne. auto.
  - destruct Hwho as [Hne|Hadm]; [|discriminate Hadm].
    apply N.eqb_neq in Hne. rewrite transferOwnership_run, Hne. auto.
Qed.

(** The owner, the primary relayer and the authorizedRelayers mapping are
    changed by nothing but a setRelayer or transferOwnership call made by
    the owner: every call by another address, and every call of the five
    registry entry points, leaves the three as they were. *)
Theorem roles_change_only_by_owner env op st :
  msg_sender env <> owner st \/ administrative op = false ->
  owner (exec (env, op) st) = owner st /\
  relayer (exec (env, op) st) = relayer st /\
  authorizedRelayers (exec (env, op) st) = authorizedRelayers st.
Proof. apply exec_roles_frame. Qed.

Lemma roles_change_only_by_owner_witness :
  (msg_sender user_env <> owner held \/
   administrative (SetRelayer 2 true) = false) /\
  relayer (exec (user_env, SetRelayer 2 true) held) = relayer held.
Proof.
  assert (H : msg_sender user_env <> owner held \/
              administrative (SetRelayer 2 true) = false)
    by (left; discriminate).
  split; [exact H|].
  apply (roles_change_only_by_owner user_env (SetRelayer 2 true) held H).
Defined.

(** setRelayer and transferOwnership never touch the ledger: whoever
    calls and whether or not the call goes through, the records and the
    event log are as before (role changes leave no trace in the log). *)
Theorem administrative_calls_leave_ledger env op st :
  administrative op = true ->
  transactions (exec (env, op) st) = transactions st /\
  events (exec (env, op) st) = events st.
Proof.
  intros Hadm. rewrite exec_unfold.
  destruct op as [h s a|h v r|h r|h v r|h|a b|a]; try discriminate Hadm; simpl.
  - rewrite setRelayer_run.
    destruct (msg_sender env =? owner st), (a =? 0), b, (relayer st =? a); auto.
  - rewrite transferOwnership_run.
    destruct (msg_sender env =? owner st), (a =? 0); auto.
Qed.

Lemma administrative_calls_leave_ledger_witness :
  administrative (SetRelayer 4 true) = true /\
  events (exec (deployer_env, SetRelayer 4 true) held) = events held.
Proof.
  assert (H : administrative (SetRelayer 4 true) = true) by reflexivity.
  split; [exact H|].
  apply (administrative_calls_leave_ledger deployer_env (SetRelayer 4 true)
           held H).
Defined.



(** ** Managing relayers *)

(** setRelayer(a, true) by the owner with a nonzero [a] goes through and
    makes [a] the primary relayer and a member of authorizedRelayers; the
    owner and the other members stay, so afterwards an address is an
    authorized relayer iff it is [a] or a member: the former primary
    relayer keeps its rights only through the mapping. *)
Theorem setRelayer_grants env a st :
  msg_sender env = owner st ->
  a <> 0 ->
  exists st',
    run (setRelayer env a true) st = Ok st' /\
    owner st' = owner st /\
    relayer st' = a /\
    authorized_at st' a = true /\
    (forall b, b <> a -> authorized_at st' b = authorized_at st b) /\
    (forall b, isAuthorizedRelayer st' b = (b =? a) || authorized_at st b).
Proof.
  intros Hown Ha. apply N.eqb_eq in Hown. apply N.eqb_neq in Ha.
  eexists. split; [rewrite setRelayer_run, Hown, Ha; reflexivity|].
  unfold isAuthorizedRelayer. simpl.
  split; [reflexivity|]. split; [reflexivity|].
  change (mkState (owner st) a (transactions st)
            (<[a:=true]> (authorizedRelayers st)) (events st))
    with (set_relayer a (set_authorized a true st)).
  split; [|split].
  - unfold set_relayer, authorized_at; simpl. rewrite lookup_insert_eq. reflexivity.
  - intros b Hb. unfold set_relayer, authorized_at; simpl.
    rewrite lookup_insert_ne by congruence. reflexivity.
  - intros b. unfold set_relayer, authorized_at; simpl.
    destruct (N.eqb_spec b a) as [->|Hb]; [reflexivity|].
    rewrite lookup_insert_ne by congruence. reflexivity.
Qed.

Lemma setRelayer_grants_witness :
  msg_sender deployer_env = owner submitted /\
  4 <> 0 /\
  exists st',
    run (setRelayer deployer_env 4 true) submitted = Ok st' /\
    relayer st' = 4.
Proof.
  assert (H1 : msg_sender deployer_env = owner submitted) by reflexivity.
  assert (H2 : 4 <> 0) by discriminate.
  split; [exact H1|]. split; [exact H2|].
  destruct (setRelayer_grants deployer_env 4 submitted H1 H2)
    as (st' & Hrun & _ & Hrel & _).
  exists st'. auto.
Defined.

(** setRelayer(a, false) by the owner with a nonzero [a] goes through,
    removes [a] from authorizedRelayers and, if [a] was the primary
    relayer, hands that slot to the owner.  Afterwards [a] is an authorized
    relayer only in the case where it is the owner and held the primary
    slot; every other address is cut off by the one call. *)
Theorem setRelayer_revokes env a st :
  msg_sender env = owner st ->
  a <> 0 ->
  exists st',
    run (setRelayer env a false) st = Ok st' /\
    owner st' = owner st /\
    relayer st' = (if relayer st =? a then owner st else relayer st) /\
    authorized_at st' a = false /\
    (forall b, b <> a -> authorized_at st' b = authorized_at st b) /\
    isAuthorizedRelayer st' a = (relayer st =? a) && (a =? owner st).
Proof.
  intros Hown Ha. apply N.eqb_eq in Hown. apply N.eqb_neq in Ha.
  eexists. split; [rewrite setRelayer_run, Hown, Ha; reflexivity|].
  unfold isAuthorizedRelayer.
  destruct (N.eqb_spec (relayer st) a) as [Hr|Hr]; simpl.
  - repeat split.
    + unfold authorized_at; simpl. rewrite lookup_insert_eq. reflexivity.
    + intros b Hb. unfold authorized_at; simpl.
      rewrite lookup_insert_ne by congruence. reflexivity.
    + unfold authorized_at; simpl. rewrite lookup_insert_eq.
      apply orb_false_r.
  - repeat split.
    + unfold authorized_at; simpl. rewrite lookup_insert_eq. reflexivity.
    + intros b Hb. unfold authorized_at; simpl.
      rewrite lookup_insert_ne by congruence. reflexivity.
    + unfold authorized_at; simpl. rewrite lookup_insert_eq.
      destruct (N.eqb_spec a (relayer st)); [congruence|reflexivity].
Qed.

Lemma setRelayer_revokes_witness :
  msg_sender deployer_env = owner fixture /\
  4 <> 0 /\
  exists st',
    run (setRelayer deployer_env 4 false) fixture = Ok st' /\
    relayer st' = 1 /\
    isAuthorizedRelayer st' 4 = false.
Proof.
  assert (H1 : msg_sender deployer_env = owner fixture) by reflexivity.
  assert (H2 : 4 <> 0) by discriminate.
  split; [exact H1|]. split; [exact H2|].
  destruct (setRelayer_revokes deployer_env 4 fixture H1 H2)
    as (st' & Hrun & _ & Hrel & _ & _ & Hauth).
  exists st'. split; [exact Hrun|]. split; [rewrite Hrel|rewrite Hauth]; reflexivity.
Defined.

(** Granting and then revoking the same nonzero address, both by the
    owner, leaves the owner as primary relayer, whoever held that slot
    before; the address is out of authorizedRelayers, the other members are
    as before, and unless the address is the owner itself it is no longer an
    authorized relayer. *)
Theorem relayer_fallback env1 env2 a st :
  msg_sender env1 = owner st ->
  msg_sender env2 = owner st ->
  a <> 0 ->
  owner (execs [(env1, SetRelayer a true); (env2, SetRelayer a false)] st)
  = owner st /\
  relayer (execs [(env1, SetRelayer a true); (env2, SetRelayer a false)] st)
  = owner st /\
  authorized_at
    (execs [(env1, SetRelayer a true); (env2, SetRelayer a false)] st) a
  = false /\
  (forall b, b <> a ->
     authorized_at
       (execs [(env1, SetRelayer a true); (env2, SetRelayer a false)] st) b
     = authorized_at st b) /\
  (a <> owner st ->
   isAuthorizedRelayer
     (execs [(env1, SetRelayer a true); (env2, SetRelayer a false)] st) a
   = false).
Proof.
  intros H1 H2 Ha. apply N.eqb_eq in H1, H2. apply N.eqb_neq in Ha.
  simpl. rewrite (exec_unfold env1). simpl.
  rewrite setRelayer_run, H1, Ha.
  rewrite exec_unfold. simpl. rewrite setRelayer_run. simpl.
  rewrite H2, Ha, N.eqb_refl.
  unfold isAuthorizedRelayer, authorized_at. simpl.
  rewrite lookup_insert_eq. simpl.
  repeat split.
  - intros b Hb. rewrite !lookup_insert_ne by congruence. reflexivity.
  - intros Hne. apply N.eqb_neq in Hne. rewrite Hne. reflexivity.
Qed.

Lemma relayer_fallback_witness :
  msg_sender deployer_env = owner fixture /\
  msg_sender deployer_env = owner fixture /\
  3 <> 0 /\
  relayer (execs [(deployer_env, SetRelayer 3 true);
                  (deployer_env, SetRelayer 3 false)] fixture)
  = 1.
Proof.
  assert (H1 : msg_sender deployer_env = owner fixture) by reflexivity.
  assert (H2 : 3 <> 0) by discriminate.
  split; [exact H1|]. split; [exact H1|]. split; [exact H2|].
  apply (relayer_fallback deployer_env deployer_env 3 fixture H1 H1 H2).
Defined.

(** ** Handing over ownership *)

(** After a transferOwnership to another address went through, every
    owner-only entry point called by the former owner reverts with "Only
    owner can call this function", and the new owner passes the check: it
    can, for one, transfer ownership onwards. *)
Theorem ownership_handover env newOwner st st' :
  run (transferOwnership env newOwner) st = Ok st' ->
  newOwner <> msg_sender env ->
  (forall env' op,
     msg_sender env' = msg_sender env -> ownerOnly op = true ->
     run (dispatch env' op) st' = Reverted OnlyOwner) /\
  (forall env' next,
     msg_sender env' = newOwner -> next <> 0 ->
     run (transferOwnership env' next) st' = Ok (set_owner next st')).
Proof.
  intros Hrun Hne. rewrite transferOwnership_run in Hrun.
  destruct (msg_sender env =? owner st); [|discriminate].
  destruct (newOwner =? 0); [discriminate|].
  injection Hrun as <-. split.
  - intros env' op Hsame Hop.
    assert (Hgate : (msg_sender env' =? owner (set_owner newOwner st)) = false)
      by (simpl; apply N.eqb_neq; congruence).
    destruct op; try discriminate Hop; simpl.
    + rewrite releaseHeldTransaction_run, Hgate. reflexivity.
    + rewrite completeTransaction_run, Hgate. reflexivity.
    + rewrite setRelayer_run, Hgate. reflexivity.
    + rewrite transferOwnership_run, Hgate. reflexivity.
  - intros env' next Hnew Hnext.
    rewrite transferOwnership_run. simpl.
    rewrite Hnew, N.eqb_refl.
    apply N.eqb_neq in Hnext. rewrite Hnext. reflexivity.
Qed.

Lemma ownership_handover_witness :
  run (transferOwnership deployer_env 2) held
  = Ok (exec (deployer_env, TransferOwnership 2) held) /\
  2 <> msg_sender deployer_env /\
  run (releaseHeldTransaction deployer_env 7 true "mine")
      (exec (deployer_env, TransferOwnership 2) held)
  = Reverted OnlyOwner.
Proof.
  assert (H1 : run (transferOwnership deployer_env 2) held
               = Ok (exec (deployer_env, TransferOwnership 2) held))
    by reflexivity.
  assert (H2 : 2 <> msg_sender deployer_env) by discriminate.
  split; [exact H1|]. split; [exact H2|].
  apply (proj1 (ownership_handover deployer_env 2 held _ H1 H2) deployer_env
           (ReleaseHeldTransaction 7 true "mine") eq_refl eq_refl).
Defined.

(** ** The two reads agree *)

(** In every reachable state isHeld reports true exactly when
    getTransactionStatus reports "HELD", and it reports (false, "") on
    every hash that getTransactionStatus reports as "NOT_FOUND" or
    "PENDING". *)
Theorem reads_agree d cs h :
  (fst (isHeld (execs cs (constructor d)) h) = true
     <-> getTransactionStatus (execs cs (constructor d)) h = "HELD") /\
  (getTransactionStatus (execs cs (constructor d)) h = "NOT_FOUND" \/
   getTransactionStatus (execs cs (constructor d)) h = "PENDING" ->
   isHeld (execs cs (constructor d)) h = (false, "")).
Proof.
  destruct (stored_ok_reachable d cs h) as [_ Hzero].
  destruct (record_ok_reachable d cs h) as [_ Hpending].
  revert Hzero Hpending. generalize (execs cs (constructor d)). intros st.
  rewrite getTransactionStatus_cases. unfold isHeld, recordExists. simpl.
  intros Hzero Hpending.
  destruct (N.eqb_spec (txHash (tx_at st h)) 0) as [Hz|Hnz]; simpl.
  - destruct (Hzero Hz) as [Hs Hr]. rewrite Hs, Hr. simpl.
    split; [split; discriminate|reflexivity].
  - destruct (status (tx_at st h)) eqn:Es; simpl; split;
      try (split; first [discriminate | reflexivity]);
      try (intros [H|H]; discriminate H).
    intros _. rewrite Hpending by reflexivity. reflexivity.
Qed.

(** ** The review path, end to end *)

(** On a nonzero hash not yet filed: a submission with a positive amount,
    a hold by an authorized relayer, an approving release and a completion
    by the owner all go through in that order; the reads report PENDING,
    HELD with the relayer's reason, VERIFIED and COMPLETED on the way, the
    record ends as Completed with the release's reason and the submitted
    sender, amount and time, the log grew by the four events in order, and a
    further hold reverts with "Transaction is not in pending state". *)
Theorem review_path envS envR envO h s a r1 r2 st :
  h <> 0 ->
  recordExists st h = false ->
  0 < a ->
  isAuthorizedRelayer st (msg_sender envR) = true ->
  msg_sender envO = owner st ->
  let st1 := exec (envS, SubmitTxHash h s a) st in
  let st2 := exec (envR, HoldTransaction h r1) st1 in
  let st3 := exec (envO, ReleaseHeldTransaction h true r2) st2 in
  let st4 := exec (envO, CompleteTransaction h) st3 in
  getTransactionStatus st1 h = "PENDING" /\
  getTransactionStatus st2 h = "HELD" /\
  isHeld st2 h = (true, r1) /\
  getTransactionStatus st3 h = "VERIFIED" /\
  getTransactionStatus st4 h = "COMPLETED" /\
  tx_at st4 h = mkTransaction h s a (block_timestamp envS) Completed r2 /\
  events st4
  = (events st
     ++ [TxSubmitted h s a (block_timestamp envS);
         TxHeld h r1 (block_timestamp envR);
         TxVerified h true r2 (block_timestamp envO);
         TxCompleted h (block_timestamp envO)])%list /\
  run (holdTransaction envR h r1) st4 = Reverted NotPending.
Proof.
  intros Hh Hex Ha Hrel Hown st1 st2 st3 st4.
  unfold recordExists in Hex. apply negb_false_iff in Hex.
  apply N.ltb_lt in Ha. apply N.eqb_eq in Hown.
  assert (Hnz : (h =? 0) = false) by (apply N.eqb_neq; exact Hh).
  assert (E1 : st1 = log (TxSubmitted h s a (block_timestamp envS))
                       (set_tx h (mkTransaction h s a (block_timestamp envS)
                                    Pending "") st)).
  { unfold st1. rewrite exec_unfold. simpl.
    rewrite submitTxHash_run, Hex, Ha. reflexivity. }
  assert (T1 : tx_at st1 h
               = mkTransaction h s a (block_timestamp envS) Pending "")
    by (rewrite E1, tx_at_log; apply tx_at_set_tx_eq).
  assert (R1 : isAuthorizedRelayer st1 (msg_sender envR) = true)
    by (rewrite E1; exact Hrel).
  assert (E2 : st2 = log (TxHeld h r1 (block_timestamp envR))
                       (transition h Held r1 st1)).
  { unfold st2. rewrite exec_unfold. simpl.
    rewrite holdTransaction_run, R1, T1. simpl. rewrite Hnz. reflexivity. }
  assert (T2 : tx_at st2 h
               = mkTransaction h s a (block_timestamp envS) Held r1).
  { rewrite E2, tx_at_log, tx_at_transition, T1.
    destruct (decide (h = h)); [reflexivity|congruence]. }
  assert (O2 : (msg_sender envO =? owner st2) = true)
    by (rewrite E2, E1; exact Hown).
  assert (E3 : st3 = log (TxVerified h true r2 (block_timestamp envO))
                       (transition h Verified r2 st2)).
  { unfold st3. rewrite exec_unfold. simpl.
    rewrite releaseHeldTransaction_run, O2, T2. simpl. rewrite Hnz.
    reflexivity. }
  assert (T3 : tx_at st3 h
               = mkTransaction h s a (block_timestamp envS) Verified r2).
  { rewrite E3, tx_at_log, tx_at_transition, T2.
    destruct (decide (h = h)); [reflexivity|congruence]. }
  assert (O3 : (msg_sender envO =? owner st3) = true)
    by (rewrite E3; exact O2).
  assert (E4 : st4 = log (TxCompleted h (block_timestamp envO))
                       (transition h Completed (reason (tx_at st3 h)) st3)).
  { unfold st4. rewrite exec_unfold. simpl.
    rewrite completeTransaction_run, O3, T3. simpl. rewrite Hnz.
    reflexivity. }
  assert (T4 : tx_at st4 h
               = mkTransaction h s a (block_timestamp envS) Completed r2).
  { rewrite E4, tx_at_log, tx_at_transition, T3.
    destruct (decide (h = h)); [reflexivity|congruence]. }
  assert (R4 : isAuthorizedRelayer st4 (msg_sender envR) = true)
    by (rewrite E4, E3, E2; exact R1).
  unfold getTransactionStatus, isHeld.
  rewrite T1, T2, T3, T4. simpl. rewrite Hnz.
  repeat split.
  - rewrite E4, E3, E2, E1. simpl. rewrite <- !app_assoc. reflexivity.
  - rewrite holdTransaction_run, R4, T4. simpl. rewrite Hnz. reflexivity.
Qed.

Lemma review_path_witness :
  9 <> 0 /\
  recordExists fixture 9 = false /\
  0 < 100 /\
  isAuthorizedRelayer fixture (msg_sender relayer_env) = true /\
  msg_sender deployer_env = owner fixture /\
  getTransactionStatus
    (exec (deployer_env, CompleteTransaction 9)
       (exec (deployer_env, ReleaseHeldTransaction 9 true "cleared")
          (exec (relayer_env, HoldTransaction 9 "manual review")
             (exec (user_env, SubmitTxHash 9 2 100) fixture)))) 9
  = "COMPLETED".
Proof.
  assert (H1 : 9 <> 0) by discriminate.
  assert (H2 : recordExists fixture 9 = false) by reflexivity.
  assert (H3 : 0 < 100) by reflexivity.
  assert (H4 : isAuthorizedRelayer fixture (msg_sender relayer_env) = true)
    by reflexivity.
  assert (H5 : msg_sender deployer_env = owner fixture) by reflexivity.
  split; [exact H1|]. split; [exact H2|]. split; [exact H3|].
  split; [exact H4|]. split; [exact H5|].
  apply (review_path user_env relayer_env deployer_env 9 2 100
           "manual review" "cleared" fixture H1 H2 H3 H4 H5).
Defined.

(** * The front end's phone number digest *)

Lemma substring_0_length n s : (String.length (String.substring 0 n s) <= n)%nat.
Proof.
  revert s. induction n as [|n IH]; intros [|c s]; simpl; try lia.
  specialize (IH s). lia.
Qed.

Lemma substring_0_prefix n s : String.prefix (String.substring 0 n s) s = true.
Proof.
  revert s. induction n as [|n IH]; intros [|c s]; simpl; try reflexivity.
  destruct (Ascii.ascii_dec c c); [apply IH|congruence].
Qed.

Lemma substring_0_chars n s c :
  In c (String.list_ascii_of_string (String.substring 0 n s)) ->
  In c (String.list_ascii_of_string s).
Proof.
  revert s. induction n as [|n IH]; intros [|c' s]; simpl; try tauto.
  intros [H|H]; [left; exact H|right; apply IH, H].
Qed.

Lemma strip_non_alnum_chars s c :
  In c (String.list_ascii_of_string (strip_non_alnum s)) -> is_alnum c = true.
Proof.
  induction s as [|c' s IH]; simpl; [tauto|].
  destruct (is_alnum c') eqn:E; [|exact IH].
  simpl. intros [<-|H]; [exact E|apply IH, H].
Qed.

Lemma substring_0_firstn n s :
  String.list_ascii_of_string (String.substring 0 n s)
  = firstn n (String.list_ascii_of_string s).
Proof.
  revert s. induction n as [|n IH]; intros [|c s]; simpl; try reflexivity.
  rewrite IH. reflexivity.
Qed.

Lemma strip_non_alnum_filter s :
  String.list_ascii_of_string (strip_non_alnum s)
  = List.filter is_alnum (String.list_ascii_of_string s).
Proof.
  induction s as [|c s IH]; simpl; [reflexivity|].
  destruct (is_alnum c); simpl; rewrite IH; reflexivity.
Qed.

Lemma string_length_chars s :
  String.length s = List.length (String.list_ascii_of_string s).
Proof. induction s as [|c s IH]; simpl; [reflexivity|]. rewrite IH. reflexivity. Qed.

Lemma is_alnum_alphabet c :
  is_alnum c
  = existsb (Ascii.eqb c) (String.list_ascii_of_string alnum_alphabet).
Proof.
  destruct c as [[] [] [] [] [] [] [] []]; vm_compute; reflexivity.
Qed.

(** hashPhoneNumber raises exactly when btoa does; otherwise its result
    is "hash_" followed by the first 20 characters (all of them, when
    there are fewer) of the base64 text with every character outside
    a-z, A-Z, 0-9 removed.  So the part after "hash_" is a prefix of the
    stripped text, consists of letters and digits only and is min(20,
    length of the stripped text) characters long, and the digest never
    exceeds 25 characters. *)
Theorem hashPhoneNumber_format btoa phone :
  match hashPhoneNumber btoa phone with
  | None => btoa phone = None
  | Some r =>
      exists b body,
        btoa phone = Some b /\
        r = ("hash_" ++ body)%string /\
        String.prefix body (strip_non_alnum b) = true /\
        (String.length body <= 20)%nat /\
        (String.length r <= 25)%nat /\
        (forall c, In c (String.list_ascii_of_string body) -> is_alnum c = true)
        /\
        String.list_ascii_of_string body
        = firstn 20
            (List.filter
               (fun c => existsb (Ascii.eqb c)
                           (String.list_ascii_of_string alnum_alphabet))
               (String.list_ascii_of_string b)) /\
        String.length body
        = Nat.min 20 (String.length (strip_non_alnum b)) /\
        String.length r = (5 + String.length body)%nat
  end.
Proof.
  unfold hashPhoneNumber. destruct (btoa phone) as [b|]; [|reflexivity].
  exists b, (String.substring 0 20 (strip_non_alnum b)).
  pose proof (substring_0_length 20 (strip_non_alnum b)) as Hlen.
  pose proof (substring_0_prefix 20 (strip_non_alnum b)) as Hpre.
  pose proof (substring_0_chars 20 (strip_non_alnum b)) as Hin.
  pose proof (substring_0_firstn 20 (strip_non_alnum b)) as Hcut.
  revert Hlen Hpre Hin Hcut.
  generalize (String.substring 0 20 (strip_non_alnum b)).
  intros body Hlen Hpre Hin Hcut.
  split; [reflexivity|]. split; [reflexivity|].
  split; [exact Hpre|]. split; [exact Hlen|]. split; [|split; [|split; [|split]]].
  - change (5 + String.length body <= 25)%nat. lia.
  - intros c Hc. apply (strip_non_alnum_chars b), Hin, Hc.
  - rewrite Hcut, strip_non_alnum_filter. f_equal.
    apply List.filter_ext. intros c. apply is_alnum_alphabet.
  - rewrite (string_length_chars body), Hcut, length_firstn.
    rewrite <- string_length_chars. reflexivity.
  - reflexivity.
Qed.

(** The digest of a ten-digit number, with the base64 text a browser
    gives for it. *)
Example hashPhoneNumber_sample :
  hashPhoneNumber (fun _ => Some "MDcxMjM0NTY3OA==") "0712345678"
  = Some "hash_MDcxMjM0NTY3OA".
Proof. reflexivity. Qed.
